(** * generate-hero-image.py: a shallow embedding and its properties

    The script [scripts/generate-hero-image.py] asks a remote image API for
    one picture, decodes the base64 payload and saves it as PNG, WEBP or
    JPEG.  Strings are 8-bit character strings, the dictionaries of the
    script are finite maps, and the effects of the script (printing, network,
    file system, [sys.exit], exceptions) are recorded in a trace by a small
    writer-and-error monad.  What the libraries decide (the HTTP answer, the
    decoded picture, whether a directory or a file can be written) is read
    from a [World]. *)

From Stdlib Require Import ZArith Ascii String List Lia Bool.
From stdpp Require Import base strings gmap list.
Import ListNotations.
Open Scope string_scope.
Open Scope Z_scope.
Set Warnings "-register-all".

(** ** Python strings *)

Module Str.

(** [c.lower()] and [c.upper()] on one character; characters outside
    A-Z / a-z are left as they are. *)
Definition lower_char (c : ascii) : ascii :=
  let n := N_of_ascii c in
  if ((65 <=? n) && (n <=? 90))%N then ascii_of_N (n + 32) else c.

Definition upper_char (c : ascii) : ascii :=
  let n := N_of_ascii c in
  if ((97 <=? n) && (n <=? 122))%N then ascii_of_N (n - 32) else c.

Fixpoint lower (s : string) : string :=
  match s with
  | EmptyString => EmptyString
  | String c r => String (lower_char c) (lower r)
  end.

Fixpoint upper (s : string) : string :=
  match s with
  | EmptyString => EmptyString
  | String c r => String (upper_char c) (upper r)
  end.

(** [s.startswith(p)] *)
Fixpoint startswith (p s : string) : bool :=
  match p, s with
  | EmptyString, _ => true
  | String a p', String b s' => if Ascii.eqb a b then startswith p' s' else false
  | String _ _, EmptyString => false
  end.

(** [p in s] for two strings: [p] occurs in [s]. *)
Fixpoint contains (p s : string) : bool :=
  startswith p s ||
  match s with
  | EmptyString => false
  | String _ s' => contains p s'
  end.

(** [s.split(sep)] for a one-character separator. *)
Fixpoint split (sep : ascii) (s : string) : list string :=
  match s with
  | EmptyString => [EmptyString]
  | String c r =>
      if Ascii.eqb c sep then EmptyString :: split sep r
      else match split sep r with
           | h :: t => String c h :: t
           | [] => [String c EmptyString]
           end
  end.

(** [sep.join(l)] *)
Fixpoint join (sep : string) (l : list string) : string :=
  match l with
  | [] => EmptyString
  | [x] => x
  | x :: r => x +:+ sep +:+ join sep r
  end.

(** [s[n:]] *)
Fixpoint drop (n : nat) (s : string) : string :=
  match n, s with
  | O, _ => s
  | S n', String _ r => drop n' r
  | S _, EmptyString => EmptyString
  end.

(** [s.rfind(c)]: the index of the last occurrence of [c], if any. *)
Fixpoint rfind (c : ascii) (s : string) : option nat :=
  match s with
  | EmptyString => None
  | String a r =>
      match rfind c r with
      | Some i => Some (S i)
      | None => if Ascii.eqb a c then Some O else None
      end
  end.

(** Truth value of a string and of an optional string ([None] and the
    empty string are false). *)
Definition truthy (s : string) : bool :=
  match s with EmptyString => false | _ => true end.

Definition truthy_opt (o : option string) : bool :=
  match o with Some s => truthy s | None => false end.

(** [a or b] on strings. *)
Definition or_else (a b : string) : string := if truthy a then a else b.

End Str.

(** ** pathlib: pure POSIX paths *)

Module Pathlib.

(** A parsed path: its root ([""], ["/"] or ["//"]) and its components. *)
Record Path := mkPath { root : string; parts : list string }.

(** [posixpath.splitroot]: one leading slash is the root, exactly two
    leading slashes are kept as the root ["//"], three or more collapse. *)
Definition splitroot (p : string) : string * string :=
  match p with
  | String "/" (String "/" (String "/" r)) => ("/", String "/" (String "/" r))
  | String "/" (String "/" r) => ("//", r)
  | String "/" r => ("/", r)
  | _ => ("", p)
  end.

Definition keep_part (x : string) : bool :=
  Str.truthy x && negb (String.eqb x ".").

(** [Path(s)]: empty components and ["."] are dropped. *)
Definition of_string (s : string) : Path :=
  let '(rt, rel) := splitroot s in
  mkPath rt (List.filter keep_part (Str.split "/" rel)).

(** [p / q] for two paths: a rooted right operand replaces the left. *)
Definition join (p q : Path) : Path :=
  if Str.truthy (root q) then q else mkPath (root p) (parts p ++ parts q).

(** [p / seg] for a string segment. *)
Definition joinpath (p : Path) (seg : string) : Path := join p (of_string seg).

(** [str(p)] *)
Definition str (p : Path) : string :=
  Str.or_else (root p +:+ Str.join "/" (parts p)) ".".

(** [p.parent]: a path without components is its own parent. *)
Definition parent (p : Path) : Path :=
  match parts p with
  | [] => p
  | _ => mkPath (root p) (removelast (parts p))
  end.

(** [p.name]: the last component, or the empty string. *)
Definition name (p : Path) : string := List.last (parts p) "".

(** [p.suffix]: from the last dot of the name on, when that dot is neither
    the first nor the last character of the name. *)
Definition suffix (p : Path) : string :=
  let n := name p in
  match Str.rfind "." n with
  | Some i =>
      if ((0 <? i) && (i <? String.length n - 1))%nat then Str.drop i n else ""
  | None => ""
  end.

End Pathlib.

(** ** Values of the script *)

(** A decoded JSON document, as [response.json()] returns it.  A float is
    kept as a decimal [m * 10^e]; an object lists its keys once. *)
Inductive json :=
| JNull
| JBool (b : bool)
| JInt (n : Z)
| JFloat (m e : Z)
| JStr (s : string)
| JList (l : list json)
| JDict (kvs : list (string * json)).

(** [d[k]] / [k in d] on the pairs of an object. *)
Fixpoint assoc (k : string) (kvs : list (string * json)) : option json :=
  match kvs with
  | [] => None
  | (k', v) :: r => if String.eqb k k' then Some v else assoc k r
  end.

(** Truth value of a Python object. *)
Definition json_truthy (v : json) : bool :=
  match v with
  | JNull => false
  | JBool b => b
  | JInt n => negb (n =? 0)
  | JFloat m _ => negb (m =? 0)
  | JStr s => Str.truthy s
  | JList l => match l with [] => false | _ => true end
  | JDict kvs => match kvs with [] => false | _ => true end
  end.

Definition is_str (k : string) (v : json) : bool :=
  match v with JStr s => String.eqb s k | _ => false end.

(** The answer of the HTTP library: status, body text and, when the body is
    JSON, its decoded form. *)
Record http_response := mkResponse {
  status_code : Z;
  text : string;
  json_body : option json
}.

(** Exceptions.  [RequestException] stands for the classes of
    [requests.exceptions] (with the response it carries, if any); [PyError]
    for the other subclasses of [Exception] ([TypeError], [KeyError],
    [OSError], ...). *)
Inductive exn :=
| RequestException (msg : string) (response : option http_response)
| PyError (cls msg : string).

(** The request handed to [requests.post]. *)
Record request := mkRequest {
  url : string;
  headers : list (string * option string);   (* a value may be None *)
  body : list (string * json);
  timeout : Z
}.

(** ** Pictures (the part of Pillow the script calls) *)

Module PIL.

(** A picture: its mode (["RGB"], ["RGBA"], ["L"], ...), its size, and one
    list of 8-bit samples per band. *)
Record Image := mkImage {
  mode : string;
  size : nat * nat;
  bands : list (list Z)
}.

(** [Image.new(mode, size, color)] with one sample of [color] per band. *)
Definition new (m : string) (sz : nat * nat) (color : list Z) : Image :=
  mkImage m sz (map (fun c => repeat c (fst sz * snd sz)) color).

(** [image.split()] *)
Definition split (im : Image) : list (list Z) := bands im.

(** Pillow's 8-bit blend: [(a + 128 + ((a + 128) >> 8)) >> 8] for
    [a = out * (255 - mask) + in * mask]. *)
Definition div255 (a : Z) : Z :=
  let t := a + 128 in Z.shiftr (Z.shiftr t 8 + t) 8.

Definition blend8 (mask out inp : Z) : Z :=
  div255 (out * (255 - mask) + inp * mask).

Fixpoint paste_band (mask out inp : list Z) : list Z :=
  match mask, out, inp with
  | m :: mask', o :: out', i :: inp' => blend8 m o i :: paste_band mask' out' inp'
  | _, _, _ => []
  end.

Fixpoint paste_bands (mask : list Z) (out inp : list (list Z)) : list (list Z) :=
  match out, inp with
  | o :: out', i :: inp' => paste_band mask o i :: paste_bands mask out' inp'
  | _, _ => []
  end.

(** [dst.paste(src, mask=mask)] for pictures of one size: every band of
    [dst] is blended with the band of [src] at the same position. *)
Definition paste (dst src : Image) (mask : list Z) : Image :=
  mkImage (mode dst) (size dst) (paste_bands mask (bands dst) (bands src)).

(** The arguments of one [image.save(path, format=..., ...)]. *)
Record save_call := mkSave {
  save_path : string;
  save_format : string;
  save_quality : option Z;
  save_method : option Z;
  save_image : Image
}.

End PIL.

(** ** Effects *)

Inductive stream := Stdout | Stderr.

(** One constructor per [print] of the script. *)
Inductive message :=
| MsgKeyRequired              (* Error: AZURE_OPENAI_API_KEY environment variable is required *)
| MsgGenerating (prompt : string)
| MsgSizeQuality (size quality : string)
| MsgRequestError (e : exn)   (* Error making API request: {e} *)
| MsgErrorDetails (j : json)
| MsgResponseText (t : string)
| MsgNoImageData              (* Error: No image data in API response *)
| MsgSaved (path : string)
| MsgRule                     (* '=' * 60 *)
| MsgContentType (content_type : string)
| MsgSlug (slug : string)
| MsgOutput (path : string)
| MsgPromptRequired           (* Error: prompt is required *)
| MsgPromptOutputRequired     (* Error: Both prompt and output path are required (or use --type and --slug) *)
| MsgError (e : exn)          (* Error: {e} *)
| MsgUsage (why : string).    (* the parser's own error *)

Inductive event :=
| Print (s : stream) (m : message)
| PrintHelp
| Mkdir (p : Pathlib.Path)
| HttpPost (r : request)
| Save (c : PIL.save_call).

(** How a computation ends: with a value, with an exception in flight, or
    with [sys.exit(code)] ([SystemExit] is no subclass of [Exception]). *)
Inductive result (A : Type) :=
| Return (a : A)
| Raised (e : exn)
| Exited (code : Z).
Arguments Return {A} a.
Arguments Raised {A} e.
Arguments Exited {A} code.

Definition run (A : Type) : Type := (list event * result A)%type.

Definition ret {A} (a : A) : run A := ([], Return a).
Definition emit (e : event) : run unit := ([e], Return tt).
Definition raise {A} (e : exn) : run A := ([], Raised e).
Definition sys_exit {A} (code : Z) : run A := ([], Exited code).

Definition bind {A B} (m : run A) (k : A -> run B) : run B :=
  match m with
  | (t, Return a) => let '(t', r) := k a in ((t ++ t')%list, r)
  | (t, Raised e) => (t, Raised e)
  | (t, Exited c) => (t, Exited c)
  end.

Notation "x <- m ;; k" := (bind m (fun x => k))
  (at level 100, m at next level, right associativity).
Notation "m ;;; k" := (bind m (fun _ => k))
  (at level 100, right associativity).

(** [try: m  except <classes selected by catches> as e: handler e] *)
Definition try_except {A} (m : run A) (catches : exn -> bool)
    (handler : exn -> run A) : run A :=
  match m with
  | (t, Raised e) =>
      if catches e then let '(t', r) := handler e in ((t ++ t')%list, r)
      else (t, Raised e)
  | other => other
  end.

Definition is_RequestException (e : exn) : bool :=
  match e with RequestException _ _ => true | PyError _ _ => false end.

Definition is_Exception (e : exn) : bool := true.

(** Lift the answer of a library call that may raise. *)
Definition lift {A} (r : exn + A) : run A :=
  match r with inl e => raise e | inr a => ret a end.

Definition lift_unit (r : option exn) : run unit :=
  match r with Some e => raise e | None => ret tt end.

Definition trace {A} (m : run A) : list event := fst m.

(** The exit status of the process: 0 at the end of the script, the code of
    [sys.exit], 1 for an exception nobody caught. *)
Definition exit_status {A} (m : run A) : Z :=
  match snd m with
  | Return _ => 0
  | Raised _ => 1
  | Exited c => c
  end.

(** ** The world around one run *)

Record World := mkWorld {
  environ : gmap string string;                  (* os.environ *)
  script_file : string;                          (* __file__ *)
  requests_post : request -> exn + http_response;
  image_open : string -> exn + PIL.Image;        (* Image.open(BytesIO(b64decode(s))) *)
  image_save : PIL.save_call -> option exn;      (* the exception of image.save, if any *)
  path_mkdir : Pathlib.Path -> option exn        (* the exception of mkdir, if any *)
}.

(** [os.getenv(key, default)] and [os.getenv(key)] *)
Definition getenv_default (w : World) (key dflt : string) : string :=
  default dflt (environ w !! key).

Definition getenv (w : World) (key : string) : option string :=
  environ w !! key.

(** ** Indexing and membership on Python objects *)

Definition TypeError {A} (msg : string) : run A := raise (PyError "TypeError" msg).
Definition KeyError {A} (msg : string) : run A := raise (PyError "KeyError" msg).
Definition IndexError {A} (msg : string) : run A := raise (PyError "IndexError" msg).

(** [k in v] for a string [k]: a key of a dict, an element of a list, a
    substring of a string; anything else is not iterable. *)
Definition py_in (k : string) (v : json) : run bool :=
  match v with
  | JDict kvs => ret (match assoc k kvs with Some _ => true | None => false end)
  | JList l => ret (existsb (is_str k) l)
  | JStr s => ret (Str.contains k s)
  | _ => TypeError "argument is not iterable"
  end.

(** [v[k]] for a string [k] *)
Definition py_getitem (v : json) (k : string) : run json :=
  match v with
  | JDict kvs =>
      match assoc k kvs with Some x => ret x | None => KeyError k end
  | JList _ => TypeError "list indices must be integers or slices, not str"
  | JStr _ => TypeError "string indices must be integers, not 'str'"
  | _ => TypeError "object is not subscriptable"
  end.

(** [v[0]] *)
Definition py_first (v : json) : run json :=
  match v with
  | JList (x :: _) => ret x
  | JList [] => IndexError "list index out of range"
  | JStr (String c _) => ret (JStr (String c EmptyString))
  | JStr EmptyString => IndexError "string index out of range"
  | JDict _ => KeyError "0"
  | _ => TypeError "object is not subscriptable"
  end.

(** [t[i]] on the tuple of bands *)
Definition tuple_index (t : list (list Z)) (i : nat) : run (list Z) :=
  match nth_error t i with
  | Some b => ret b
  | None => IndexError "tuple index out of range"
  end.

(** ** The script *)

(** Module level: the four settings read from the environment. *)
Definition endpoint (w : World) : string :=
  getenv_default w "AZURE_OPENAI_ENDPOINT" "https://eas-2.openai.azure.com/".
Definition deployment (w : World) : string :=
  getenv_default w "DEPLOYMENT_NAME" "gpt-image-1".
Definition api_version (w : World) : string :=
  getenv_default w "OPENAI_API_VERSION" "2025-04-01-preview".
Definition subscription_key (w : World) : option string :=
  getenv w "AZURE_OPENAI_API_KEY".

Definition print (s : stream) (m : message) : run unit := emit (Print s m).

(** [image.save(...)]: the call is recorded, then the library may raise. *)
Definition save (w : World) (c : PIL.save_call) : run unit :=
  emit (Save c) ;;; lift_unit (image_save w c).

(** [Image.open(BytesIO(base64.b64decode(b64_data)))] *)
Definition open_b64 (w : World) (b64_data : json) : run PIL.Image :=
  match b64_data with
  | JStr s => lift (image_open w s)
  | _ => TypeError "argument should be a bytes-like object or ASCII string"
  end.

(** [Path(output_path).suffix[1:].lower() or "png"] *)
Definition format_of_path (output_path : string) : string :=
  Str.or_else
    (Str.lower (Str.drop 1 (Pathlib.suffix (Pathlib.of_string output_path))))
    "png".

(** The format after [if output_format is None: ...]. *)
Definition target_format (output_format : option string) (output_path : string)
    : string :=
  match output_format with
  | None => format_of_path output_path
  | Some f => f
  end.

Definition is_webp (f : string) : bool := String.eqb (Str.lower f) "webp".
Definition is_jpeg (f : string) : bool :=
  String.eqb (Str.lower f) "jpg" || String.eqb (Str.lower f) "jpeg".

(** Lines 44-47: an RGBA picture pasted on a white RGB picture, with its
    fourth band as the mask. *)
Definition flatten_rgba (image : PIL.Image) : run PIL.Image :=
  if String.eqb (PIL.mode image) "RGBA" then
    let rgb_image := PIL.new "RGB" (PIL.size image) [255; 255; 255] in
    alpha <- tuple_index (PIL.split image) 3 ;;
    ret (PIL.paste rgb_image image alpha)
  else ret image.

Definition decode_and_save_image (w : World) (b64_data : json)
    (output_path : string) (output_format : option string) (quality : Z)
    : run string :=
  image <- open_b64 w b64_data ;;
  let output_format := target_format output_format output_path in
  (if is_webp output_format then
     save w (PIL.mkSave output_path "WEBP" (Some quality) (Some 6) image)
   else if is_jpeg output_format then
     image <- flatten_rgba image ;;
     save w (PIL.mkSave output_path "JPEG" (Some quality) None image)
   else
     save w (PIL.mkSave output_path (Str.upper output_format) None None image)) ;;;
  ret output_path.

(** The dictionary of lines 104-109. *)
Definition quality_map : gmap string Z :=
  <["low" := 70]> (<["medium" := 85]> (<["high" := 95]> (<["auto" := 95]> ∅))).

(** [quality_map.get(quality.lower(), 95)] *)
Definition conversion_quality (quality : string) : Z :=
  default 95 (quality_map !! Str.lower quality).

Definition generation_url (w : World) : string :=
  let base_path := "openai/deployments/" +:+ deployment w +:+ "/images" in
  let params := "?api-version=" +:+ api_version w in
  endpoint w +:+ base_path +:+ "/generations" +:+ params.

Definition generation_body (prompt size quality : string)
    : list (string * json) :=
  [ ("prompt", JStr prompt);
    ("n", JInt 1);
    ("size", JStr size);
    ("quality", JStr quality);
    ("output_format", JStr "png") ].

Definition generation_request (w : World) (prompt size quality : string)
    : request :=
  mkRequest (generation_url w)
    [ ("Api-Key", subscription_key w);
      ("Content-Type", Some "application/json") ]
    (generation_body prompt size quality)
    180.

(** [requests.post(...)] *)
Definition post (w : World) (r : request) : run http_response :=
  emit (HttpPost r) ;;; lift (requests_post w r).

(** [response.raise_for_status()] *)
Definition raise_for_status (r : http_response) : run unit :=
  if (400 <=? status_code r) && (status_code r <? 600)
  then raise (RequestException "HTTPError" (Some r))
  else ret tt.

(** [response.json()] *)
Definition response_json (r : http_response) : run json :=
  match json_body r with
  | Some j => ret j
  | None => raise (RequestException "JSONDecodeError" None)
  end.

(** The handler of lines 84-92. *)
Definition request_failed {A} (e : exn) : run A :=
  print Stderr (MsgRequestError e) ;;;
  match e with
  | RequestException _ (Some r) =>
      match json_body r with
      | Some error_details => print Stderr (MsgErrorDetails error_details)
      | None => print Stderr (MsgResponseText (text r))
      end
  | _ => ret tt
  end ;;;
  sys_exit 1.

Definition generate_image (w : World) (prompt output_path size quality : string)
    (output_format : option string) : run string :=
  print Stdout (MsgGenerating prompt) ;;;
  print Stdout (MsgSizeQuality size quality) ;;;
  response_data <-
    try_except
      (response <- post w (generation_request w prompt size quality) ;;
       raise_for_status response ;;;
       response_json response)
      is_RequestException
      request_failed ;;
  has_data <- py_in "data" response_data ;;
  no_data <-
    (if negb has_data then ret true
     else d <- py_getitem response_data "data" ;; ret (negb (json_truthy d))) ;;
  (if no_data : bool then print Stderr MsgNoImageData ;;; sys_exit 1 else ret tt) ;;;
  let output_format := Some (target_format output_format output_path) in
  let conversion_quality := conversion_quality quality in
  d <- py_getitem response_data "data" ;;
  first <- py_first d ;;
  b64_img <- py_getitem first "b64_json" ;;
  saved_path <-
    decode_and_save_image w b64_img output_path output_format conversion_quality ;;
  print Stdout (MsgSaved saved_path) ;;;
  ret saved_path.

(** [Path(__file__).parent.parent] *)
Definition project_root (w : World) : Pathlib.Path :=
  Pathlib.parent (Pathlib.parent (Pathlib.of_string (script_file w))).

(** [path.mkdir(parents=True, exist_ok=True)] *)
Definition mkdir (w : World) (p : Pathlib.Path) : run unit :=
  emit (Mkdir p) ;;; lift_unit (path_mkdir w p).

Definition content_output_dir (w : World) (content_type : string)
    : Pathlib.Path :=
  Pathlib.joinpath
    (Pathlib.joinpath
       (Pathlib.joinpath (Pathlib.joinpath (project_root w) "public") "images")
       "webp")
    content_type.

Definition content_output_path (w : World) (content_type slug : string)
    : Pathlib.Path :=
  Pathlib.joinpath (content_output_dir w content_type) (slug +:+ ".webp").

Definition generate_content_image (w : World)
    (content_type slug prompt size quality : string) : run string :=
  let output_dir := content_output_dir w content_type in
  mkdir w output_dir ;;;
  let output_path := Pathlib.joinpath output_dir (slug +:+ ".webp") in
  print Stdout MsgRule ;;;
  print Stdout (MsgContentType content_type) ;;;
  print Stdout (MsgSlug slug) ;;;
  print Stdout (MsgOutput (Pathlib.str output_path)) ;;;
  print Stdout MsgRule ;;;
  generate_image w prompt (Pathlib.str output_path) size quality None.

(** ** The command line *)

(** One [parser.add_argument(...)]: the positional name or the option
    string, [nargs="?"], [default=] and [choices=]. *)
Record Argument := mkArgument {
  arg_name : string;
  arg_optional : bool;
  arg_default : option string;
  arg_choices : option (list string)
}.

Definition arg_prompt : Argument := mkArgument "prompt" true None None.
Definition arg_output : Argument := mkArgument "output" true None None.
Definition arg_type : Argument :=
  mkArgument "--type" false None (Some ["tips"; "guides"; "news"]).
Definition arg_slug : Argument := mkArgument "--slug" false None None.
Definition arg_size : Argument :=
  mkArgument "--size" false (Some "1536x1024") None.
Definition arg_quality : Argument :=
  mkArgument "--quality" false (Some "high")
    (Some ["low"; "medium"; "high"; "auto"]).

Definition parser_positionals : list Argument := [arg_prompt; arg_output].
Definition parser_options : list Argument :=
  [arg_type; arg_slug; arg_size; arg_quality].

(** What [parser.parse_args()] returns. *)
Record Namespace := mkNamespace {
  ns_prompt : option string;
  ns_output : option string;
  ns_type : option string;
  ns_slug : option string;
  ns_size : string;
  ns_quality : string
}.

(** The namespace of the defaults. *)
Definition ns_defaults : Namespace :=
  mkNamespace None None None None "1536x1024" "high".

(** The command line after argparse has told options from positionals
    (matching of option strings, [--opt=value], abbreviations): a positional
    value, an option string with its value, or the help flag ([-h] or
    [--help]) that [ArgumentParser] adds by default. *)
Inductive cli_item :=
| Positional (v : string)
| Optional (flag v : string)
| HelpFlag.

(** How the parser leaves the script: with its error, or after the help. *)
Inductive parser_exit :=
| UsageError (why : string)
| HelpPrinted.

(** argparse's check of a value against [choices]. *)
Definition check_value (a : Argument) (v : string) : bool :=
  match arg_choices a with
  | None => true
  | Some l => existsb (String.eqb v) l
  end.

(** The store action: [setattr(namespace, dest, value)]. *)
Definition store (a : Argument) (v : string) (ns : Namespace) : Namespace :=
  let n := arg_name a in
  if String.eqb n "prompt" then
    mkNamespace (Some v) (ns_output ns) (ns_type ns) (ns_slug ns) (ns_size ns) (ns_quality ns)
  else if String.eqb n "output" then
    mkNamespace (ns_prompt ns) (Some v) (ns_type ns) (ns_slug ns) (ns_size ns) (ns_quality ns)
  else if String.eqb n "--type" then
    mkNamespace (ns_prompt ns) (ns_output ns) (Some v) (ns_slug ns) (ns_size ns) (ns_quality ns)
  else if String.eqb n "--slug" then
    mkNamespace (ns_prompt ns) (ns_output ns) (ns_type ns) (Some v) (ns_size ns) (ns_quality ns)
  else if String.eqb n "--size" then
    mkNamespace (ns_prompt ns) (ns_output ns) (ns_type ns) (ns_slug ns) v (ns_quality ns)
  else if String.eqb n "--quality" then
    mkNamespace (ns_prompt ns) (ns_output ns) (ns_type ns) (ns_slug ns) (ns_size ns) v
  else ns.

Definition find_option (flag : string) : option Argument :=
  List.find (fun a => String.eqb (arg_name a) flag) parser_options.

(** The rest of the command line once an argument was not recognized: the
    parser collects such arguments and reports them only at the end, so a
    help flag or a value outside [choices] further on comes first. *)
Fixpoint after_extras (items : list cli_item) : parser_exit :=
  match items with
  | [] => UsageError "unrecognized arguments"
  | HelpFlag :: _ => HelpPrinted
  | Positional _ :: rest => after_extras rest
  | Optional flag v :: rest =>
      match find_option flag with
      | None => after_extras rest
      | Some a =>
          if check_value a v then after_extras rest
          else UsageError "invalid choice"
      end
  end.

(** The items are taken in order: positionals fill [prompt], then
    [output], also across options (as later CPython releases do; 3.11 takes
    positionals only from the first group of them); an option stores its
    value, the last one wins; the help flag stops the parser where it
    stands.  A value outside [choices] is the parser's error at once, an
    unknown option or a third positional at the end. *)
Fixpoint parse_items (positionals : list Argument) (items : list cli_item)
    (ns : Namespace) : parser_exit + Namespace :=
  match items with
  | [] => inr ns
  | HelpFlag :: _ => inl HelpPrinted
  | Positional v :: rest =>
      match positionals with
      | [] => inl (after_extras rest)
      | a :: ps =>
          if check_value a v then parse_items ps rest (store a v ns)
          else inl (UsageError "invalid choice")
      end
  | Optional flag v :: rest =>
      match find_option flag with
      | None => inl (after_extras rest)
      | Some a =>
          if check_value a v then parse_items positionals rest (store a v ns)
          else inl (UsageError "invalid choice")
      end
  end.

(** [parser.parse_args()]: an error prints the usage and exits with 2, the
    help action prints the help and exits with 0. *)
Definition parse_args (items : list cli_item) : run Namespace :=
  match parse_items parser_positionals items ns_defaults with
  | inr ns => ret ns
  | inl (UsageError why) => print Stderr (MsgUsage why) ;;; sys_exit 2
  | inl HelpPrinted => emit PrintHelp ;;; sys_exit 0
  end.

(** The [except Exception as e] of [main]. *)
Definition report_error {A} (e : exn) : run A :=
  print Stderr (MsgError e) ;;; sys_exit 1.

(** Lines 214-230. *)
Definition content_type_mode (w : World) (args : Namespace)
    (content_type slug : string) : run unit :=
  match ns_prompt args with
  | Some prompt =>
      if Str.truthy prompt then
        try_except
          (generate_content_image w content_type slug prompt
             (ns_size args) (ns_quality args) ;;; ret tt)
          is_Exception report_error
      else print Stderr MsgPromptRequired ;;; emit PrintHelp ;;; sys_exit 1
  | None => print Stderr MsgPromptRequired ;;; emit PrintHelp ;;; sys_exit 1
  end.

(** Lines 232-252. *)
Definition custom_path_mode (w : World) (args : Namespace) : run unit :=
  match ns_prompt args, ns_output args with
  | Some prompt, Some output =>
      if Str.truthy prompt && Str.truthy output then
        let output_path := Pathlib.of_string output in
        mkdir w (Pathlib.parent output_path) ;;;
        try_except
          (generate_image w prompt (Pathlib.str output_path)
             (ns_size args) (ns_quality args) None ;;; ret tt)
          is_Exception report_error
      else
        print Stderr MsgPromptOutputRequired ;;; emit PrintHelp ;;; sys_exit 1
  | _, _ =>
      print Stderr MsgPromptOutputRequired ;;; emit PrintHelp ;;; sys_exit 1
  end.

(** [main] after [parse_args]: [if args.type and args.slug: ... else: ...] *)
Definition main_args (w : World) (args : Namespace) : run unit :=
  match ns_type args, ns_slug args with
  | Some content_type, Some slug =>
      if Str.truthy content_type && Str.truthy slug
      then content_type_mode w args content_type slug
      else custom_path_mode w args
  | _, _ => custom_path_mode w args
  end.

Definition main (w : World) (items : list cli_item) : run unit :=
  args <- parse_args items ;;
  main_args w args.

(** The whole script: the check of the key at module level, then [main()]. *)
Definition script (w : World) (items : list cli_item) : run unit :=
  (if negb (Str.truthy_opt (subscription_key w))
   then print Stderr MsgKeyRequired ;;; sys_exit 1
   else ret tt) ;;;
  main w items.

(** ** Notions used in the statements *)

Definition is_generation_post (w : World) (prompt size quality : string)
    (e : event) : Prop :=
  forall r, e = HttpPost r -> r = generation_request w prompt size quality.

(** The path [main] hands to [generate_image], when it gets that far. *)
Definition output_path_of (w : World) (args : Namespace) : option string :=
  match ns_type args, ns_slug args with
  | Some t, Some s =>
      if Str.truthy t && Str.truthy s
      then Some (Pathlib.str (content_output_path w t s))
      else option_map (fun o => Pathlib.str (Pathlib.of_string o)) (ns_output args)
  | _, _ => option_map (fun o => Pathlib.str (Pathlib.of_string o)) (ns_output args)
  end.

Definition sample_rgba : PIL.Image :=
  PIL.mkImage "RGBA" (2%nat, 1%nat) [[10; 20]; [30; 40]; [50; 60]; [255; 0]].

Definition sample_rgb : PIL.Image :=
  PIL.mkImage "RGB" (2%nat, 1%nat) [[10; 20]; [30; 40]; [50; 60]].

Definition ok_response : http_response :=
  mkResponse 200 ""
    (Some (JDict [("data", JList [JDict [("b64_json", JStr "aGVybw==")]])])).

(** A world with the key set, the script started as
    [scripts/generate-hero-image.py] from the project root, an API that
    answers with one picture, and a file system that accepts everything. *)
Definition sample_world (image : PIL.Image) : World :=
  mkWorld (<["AZURE_OPENAI_API_KEY" := "secret"]> ∅)
    "scripts/generate-hero-image.py"
    (fun _ => inr ok_response)
    (fun _ => inr image)
    (fun _ => None)
    (fun _ => None).

Definition world_without_key : World :=
  mkWorld ∅ "scripts/generate-hero-image.py"
    (fun _ => inr ok_response) (fun _ => inr sample_rgb)
    (fun _ => None) (fun _ => None).

Definition fixed_fields (r : request) : Prop :=
  assoc "n" (body r) = Some (JInt 1)
  /\ assoc "output_format" (body r) = Some (JStr "png").

(** What [decode_and_save_image] hands to [image.save] in each of its three
    branches, for the target format [f] and the quality [q]. *)
Definition save_rule (f : string) (q : Z) (c : PIL.save_call) : Prop :=
  if is_webp f then
    PIL.save_format c = "WEBP" /\ PIL.save_quality c = Some q
    /\ PIL.save_method c = Some 6
  else if is_jpeg f then
    PIL.save_format c = "JPEG" /\ PIL.save_quality c = Some q
    /\ PIL.save_method c = None
  else
    PIL.save_format c = Str.upper f /\ PIL.save_quality c = None
    /\ PIL.save_method c = None.

Definition saves_as (output_path f : string) (q : Z) (e : event) : Prop :=
  forall c, e = Save c -> PIL.save_path c = output_path /\ save_rule f q c.

(** The white picture an RGBA picture is pasted on. *)
Definition white_background (image : PIL.Image) : PIL.Image :=
  PIL.new "RGB" (PIL.size image) [255; 255; 255].

(** The value under ["data"] of a JSON object; any other document has no
    such field. *)
Definition data_field (r : json) : option json :=
  match r with
  | JDict kvs => assoc "data" kvs
  | _ => None
  end.

Definition lacks_data (r : json) : Prop :=
  data_field r = None \/ data_field r = Some (JList []).

Definition not_a_save (e : event) : Prop := forall c, e <> Save c.

(** A computation that never called [image.save] and did not leave with a
    status other than 1 ... *)
Definition harmless {A} (m : run A) : Prop :=
  match snd m with
  | Exited code => code = 1
  | _ => True
  end
  /\ Forall not_a_save (trace m).

(** ... and one that, moreover, did not come to its end. *)
Definition fails {A} (m : run A) : Prop :=
  harmless m /\ forall a, snd m <> Return a.

(** The process ends with status 1 and [image.save] was never called. *)
Definition exits_1_unsaved {A} (m : run A) : Prop :=
  exit_status m = 1 /\ Forall not_a_save (trace m).

Definition response_without_data : http_response :=
  mkResponse 200 "" (Some (JDict [("created", JInt 1762214400)])).

Definition world_without_data : World :=
  mkWorld (<["AZURE_OPENAI_API_KEY" := "secret"]> ∅)
    "scripts/generate-hero-image.py"
    (fun _ => inr response_without_data)
    (fun _ => inr sample_rgb)
    (fun _ => None)
    (fun _ => None).

(** The option [flag] occurs on the command line. *)
Definition has_option (flag : string) (items : list cli_item) : bool :=
  existsb (fun i => match i with
                    | Optional f _ => String.eqb f flag
                    | Positional _ => false
                    | HelpFlag => false
                    end) items.

(** The help flag occurs on the command line. *)
Definition has_help (items : list cli_item) : bool :=
  existsb (fun i => match i with HelpFlag => true | _ => false end) items.

(** The namespace with [type] and [slug] forgotten. *)
Definition without_type_slug (args : Namespace) : Namespace :=
  mkNamespace (ns_prompt args) (ns_output args) None None
    (ns_size args) (ns_quality args).

Definition quality_choices : list string := ["low"; "medium"; "high"; "auto"].
Definition type_choices : list string := ["tips"; "guides"; "news"].

(** A string longer than every string of the list. *)
Definition longer_than_all (l : list string) : string :=
  fold_right String.append "x" l.

Definition sent_as_given (args : Namespace) (e : event) : Prop :=
  forall r, e = HttpPost r ->
    assoc "size" (body r) = Some (JStr (ns_size args))
    /\ assoc "quality" (body r) = Some (JStr (ns_quality args)).

(** [public/images/webp/{type}/{slug}.webp] *)
Definition convention_path (content_type slug : string) : string :=
  "public/images/webp/" +:+ content_type +:+ "/" +:+ slug +:+ ".webp".

(** That path, below the project root. *)
Definition expected_output_path (w : World) (content_type slug : string) : string :=
  Pathlib.str
    (Pathlib.join (project_root w)
       (Pathlib.of_string (convention_path content_type slug))).

Definition saved_at (path : string) (e : event) : Prop :=
  forall c, e = Save c -> PIL.save_path c = path.

Definition with_output (o : option string) (args : Namespace) : Namespace :=
  mkNamespace (ns_prompt args) o (ns_type args) (ns_slug args)
    (ns_size args) (ns_quality args).

(** ** Notions used in the further properties *)

(** [c in s] for a character. *)
Fixpoint has_char (c : ascii) (s : string) : bool :=
  match s with
  | EmptyString => false
  | String a r => Ascii.eqb a c || has_char c r
  end.

(** A component as [Path(...)] keeps them: not empty, not ["."], no slash. *)
Definition part_ok (x : string) : Prop :=
  Pathlib.keep_part x = true /\ has_char "/" x = false.

(** The shape of every parsed path. *)
Definition wf_path (p : Pathlib.Path) : Prop :=
  (Pathlib.root p = "" \/ Pathlib.root p = "/" \/ Pathlib.root p = "//")
  /\ Forall part_ok (Pathlib.parts p).

(** [sys.exit] is only called with a code of [codes]. *)
Definition exits_in (codes : Z -> Prop) {A} (m : run A) : Prop :=
  match snd m with
  | Exited code => codes code
  | _ => True
  end.

(** The computation does not come to its end: it raises, or exits with a
    code of [codes]. *)
Definition aborts_in (codes : Z -> Prop) {A} (m : run A) : Prop :=
  match snd m with
  | Return _ => False
  | Raised _ => True
  | Exited code => codes code
  end.

(** When the computation comes to its end its trace satisfies [Q]; when it
    exits, the code is one of [codes]. *)
Definition ends_well (Q : list event -> Prop) (codes : Z -> Prop) {A}
    (m : run A) : Prop :=
  match snd m with
  | Return _ => Q (trace m)
  | Raised _ => True
  | Exited code => codes code
  end.

(** [image.save] was called and did not raise. *)
Definition saved (w : World) (t : list event) : Prop :=
  exists c, In (Save c) t /\ image_save w c = None.

(** A request was posted. *)
Definition posted (t : list event) : Prop := exists r, In (HttpPost r) t.

Definition code_1 (code : Z) : Prop := code = 1.

(** Both at once. *)
Definition saved_and_posted (w : World) (t : list event) : Prop :=
  saved w t /\ posted t.

Definition is_post (e : event) : bool :=
  match e with HttpPost _ => true | _ => false end.

Definition is_save (e : event) : bool :=
  match e with Save _ => true | _ => false end.

(** The number of events of a kind in a trace. *)
Definition count (kind : event -> bool) (t : list event) : nat :=
  length (List.filter kind t).

Definition none_of (kind : event -> bool) (e : event) : Prop := kind e = false.

(** The answer to a request is unusable: the library raised, the status is
    an error status, or the body is not JSON. *)
Definition unusable (a : exn + http_response) : Prop :=
  match a with
  | inl _ => True
  | inr resp => 400 <= status_code resp < 600 \/ json_body resp = None
  end.

Definition error_response : http_response :=
  mkResponse 429 "Too Many Requests" None.

Definition world_with_http_error : World :=
  mkWorld (<["AZURE_OPENAI_API_KEY" := "secret"]> ∅)
    "scripts/generate-hero-image.py"
    (fun _ => inr error_response)
    (fun _ => inr sample_rgb)
    (fun _ => None)
    (fun _ => None).

Definition not_a_post (e : event) : Prop := forall r, e <> HttpPost r.

Definition world_read_only : World :=
  mkWorld (<["AZURE_OPENAI_API_KEY" := "secret"]> ∅)
    "scripts/generate-hero-image.py"
    (fun _ => inr ok_response)
    (fun _ => inr sample_rgb)
    (fun _ => None)
    (fun _ => Some (PyError "PermissionError" "Permission denied")).

(** [response_data['data'][0]['b64_json']], when the answer is an object
    whose "data" is a list that starts with an object holding a string
    there. *)
Definition b64_json_of (r : json) : option string :=
  match r with
  | JDict kvs =>
      match assoc "data" kvs with
      | Some (JList (JDict entry :: _)) =>
          match assoc "b64_json" entry with
          | Some (JStr s) => Some s
          | _ => None
          end
      | _ => None
      end
  | _ => None
  end.

Definition two_pictures_response : http_response :=
  mkResponse 200 ""
    (Some (JDict [("created", JInt 1762214400);
                  ("data", JList [JDict [("b64_json", JStr "Zmlyc3Q=")];
                                  JDict [("b64_json", JStr "c2Vjb25k")]])])).

Definition world_two_pictures : World :=
  mkWorld (<["AZURE_OPENAI_API_KEY" := "secret"]> ∅)
    "scripts/generate-hero-image.py"
    (fun _ => inr two_pictures_response)
    (fun s => if String.eqb s "Zmlyc3Q=" then inr sample_rgb else inr sample_rgba)
    (fun _ => None)
    (fun _ => None).

Definition answer_without_b64 : http_response :=
  mkResponse 200 ""
    (Some (JDict [("data", JList [JDict [("url", JStr "https://example.org/fern.png")]])])).

Definition world_without_b64 : World :=
  mkWorld (<["AZURE_OPENAI_API_KEY" := "secret"]> ∅)
    "scripts/generate-hero-image.py"
    (fun _ => inr answer_without_b64)
    (fun _ => inr sample_rgb)
    (fun _ => None)
    (fun _ => None).

(** [main] has a place to write to: both [--type] and [--slug], or an
    output. *)
Definition has_target (args : Namespace) : bool :=
  (Str.truthy_opt (ns_type args) && Str.truthy_opt (ns_slug args))
  || Str.truthy_opt (ns_output args).

(** An RGBA picture has its four bands. *)
Definition rgba_has_alpha (image : PIL.Image) : bool :=
  if String.eqb (PIL.mode image) "RGBA"
  then (3 <? length (PIL.bands image))%nat
  else true.

(** The request of a run for the prompt of the command line, with the key
    of the environment. *)
Definition carries (w : World) (args : Namespace) (e : event) : Prop :=
  forall r, e = HttpPost r ->
    exists prompt,
      ns_prompt args = Some prompt /\ Str.truthy prompt = true
      /\ r = generation_request w prompt (ns_size args) (ns_quality args).

(** The sample of band [k] at pixel [i]. *)
Definition sample (image : PIL.Image) (k i : nat) : option Z :=
  match nth_error (PIL.bands image) k with
  | Some band => nth_error band i
  | None => None
  end.

(** * Properties *)

Example of_string_drops_empty_and_dot :
  Pathlib.of_string "a//b/./c.webp" = Pathlib.mkPath "" ["a"; "b"; "c.webp"].
Proof. reflexivity. Qed.

Example suffix_of_some_names :
  Pathlib.suffix (Pathlib.of_string "out/hero.tar.WEBP") = ".WEBP"
  /\ Pathlib.suffix (Pathlib.of_string "out/.hidden") = ""
  /\ Pathlib.suffix (Pathlib.of_string "out/file.") = ""
  /\ Pathlib.str (Pathlib.of_string "") = ".".
Proof. repeat split. Qed.

(** ** Traces of composed computations *)

Section Traces.
Context {A B : Type} (P : event -> Prop).

Lemma Forall_trace_bind (m : run A) (k : A -> run B) :
  Forall P (trace m) ->
  (forall a, Forall P (trace (k a))) ->
  Forall P (trace (bind m k)).
Proof.
  destruct m as [t [a | e | c]]; simpl; intros Ht Hk; auto.
  specialize (Hk a). destruct (k a) as [t' r]; simpl in *.
  apply Forall_app; auto.
Qed.

Lemma Forall_trace_try (m : run A) (catches : exn -> bool)
    (handler : exn -> run A) :
  Forall P (trace m) ->
  (forall e, Forall P (trace (handler e))) ->
  Forall P (trace (try_except m catches handler)).
Proof.
  destruct m as [t [a | e | c]]; simpl; intros Ht Hh; auto.
  destruct (catches e); simpl; auto.
  specialize (Hh e). destruct (handler e) as [t' r]; simpl in *.
  apply Forall_app; auto.
Qed.

Lemma Forall_trace_nil (m : run A) : trace m = [] -> Forall P (trace m).
Proof. intros ->. constructor. Qed.

Lemma Forall_trace_emit (e : event) : P e -> Forall P (trace (emit e)).
Proof. intros H. repeat constructor. exact H. Qed.
End Traces.

Lemma bind_ret {A B} (a : A) (k : A -> run B) : bind (ret a) k = k a.
Proof. unfold bind, ret. destruct (k a). reflexivity. Qed.

Lemma trace_lift {A} (r : exn + A) : trace (lift r) = [].
Proof. destruct r; reflexivity. Qed.

Lemma trace_lift_unit (r : option exn) : trace (lift_unit r) = [].
Proof. destruct r; reflexivity. Qed.

(** Splits a goal [Forall P (trace m)] along the binds, handlers and case
    distinctions of [m]; what remains are the events [m] emits. *)
Ltac trace_forall_with leaf :=
  repeat first
    [ leaf
    | apply Forall_trace_bind; [ | intros ? ]
    | apply Forall_trace_try; [ | intros ? ]
    | apply Forall_trace_emit
    | apply Forall_trace_nil;
      first [ reflexivity | apply trace_lift | apply trace_lift_unit ]
    | match goal with
      | |- Forall _ (trace (match ?x with _ => _ end)) => destruct x
      | |- Forall _ (trace (let '(_, _) := ?x in _)) => destruct x
      | |- Forall _ (trace (if ?b then _ else _)) => destruct b
      end ].

Ltac trace_forall := trace_forall_with fail.

Ltac unfold_generate_image :=
  unfold generate_image, decode_and_save_image, post, save, print,
    request_failed, flatten_rgba, open_b64, py_in, py_getitem, py_first,
    tuple_index, raise_for_status, response_json, lift, lift_unit,
    TypeError, KeyError, IndexError.

Ltac unfold_main :=
  unfold script, main, parse_args, main_args, content_type_mode,
    custom_path_mode, generate_content_image, report_error, mkdir, print.

Lemma generate_image_posts w prompt output_path size quality output_format :
  Forall (is_generation_post w prompt size quality)
    (trace (generate_image w prompt output_path size quality output_format)).
Proof.
  unfold_generate_image. trace_forall.
  all: try (intros r Hr; congruence).
Qed.

(** Every event of [main] satisfies [P] when the prints, the help, the
    directory creations and the events of its call of [generate_image] do. *)
Lemma main_args_events (P : event -> Prop) w args :
  (forall s m, P (Print s m)) -> P PrintHelp -> (forall p, P (Mkdir p)) ->
  (forall prompt output_path,
      output_path_of w args = Some output_path ->
      Forall P (trace (generate_image w prompt output_path
                         (ns_size args) (ns_quality args) None))) ->
  Forall P (trace (main_args w args)).
Proof.
  intros Hprint Hhelp Hmkdir Hgen.
  unfold output_path_of in Hgen. unfold_main. unfold content_output_path in Hgen.
  destruct (ns_type args) as [t|], (ns_slug args) as [s|],
    (ns_prompt args) as [p|], (ns_output args) as [o|]; simpl in Hgen;
    repeat match goal with
    | |- context [Str.truthy ?x] =>
        destruct (Str.truthy x); cbn [andb] in *
    end;
    trace_forall_with ltac:(first [ apply Hprint | apply Hhelp | apply Hmkdir
                                  | apply Hgen; reflexivity ]).
Qed.

Lemma script_events (P : event -> Prop) w items :
  (forall s m, P (Print s m)) -> P PrintHelp -> (forall p, P (Mkdir p)) ->
  (forall args prompt output_path,
      parse_items parser_positionals items ns_defaults = inr args ->
      output_path_of w args = Some output_path ->
      Forall P (trace (generate_image w prompt output_path
                         (ns_size args) (ns_quality args) None))) ->
  Forall P (trace (script w items)).
Proof.
  intros Hprint Hhelp Hmkdir Hgen.
  unfold script, main, parse_args, print.
  destruct (parse_items parser_positionals items ns_defaults)
    as [[why |] | args] eqn:E.
  - destruct (negb _); simpl; repeat constructor; apply Hprint.
  - destruct (negb _); simpl; repeat constructor; first [ apply Hprint | apply Hhelp ].
  - rewrite bind_ret.
    trace_forall_with ltac:(first [ apply Hprint
                                  | apply main_args_events; eauto ]).
Qed.

(** ** The API key *)

(** C5: when the environment has no AZURE_OPENAI_API_KEY, the script prints
    its error and exits with status 1 at once; no request is posted. *)
Theorem missing_key_exits_before_request (w : World) (items : list cli_item) :
  environ w !! "AZURE_OPENAI_API_KEY" = None ->
  exit_status (script w items) = 1
  /\ trace (script w items) = [Print Stderr MsgKeyRequired]
  /\ forall r, ~ In (HttpPost r) (trace (script w items)).
Proof.
  intros Hkey.
  assert (E : script w items = ([Print Stderr MsgKeyRequired], Exited 1)).
  { unfold script, subscription_key, getenv. rewrite Hkey. reflexivity. }
  rewrite E. repeat split. simpl. intros r [H | []]. discriminate H.
Qed.

Lemma missing_key_exits_before_request_witness :
  exit_status (script world_without_key [Positional "a fern"; Positional "fern.png"]) = 1
  /\ trace (script world_without_key [Positional "a fern"; Positional "fern.png"])
     = [Print Stderr MsgKeyRequired]
  /\ forall r, ~ In (HttpPost r)
        (trace (script world_without_key [Positional "a fern"; Positional "fern.png"])).
Proof.
  apply (missing_key_exits_before_request world_without_key
           [Positional "a fern"; Positional "fern.png"]).
  reflexivity.
Defined.

(** ** The request *)

Lemma generation_request_fixed_fields w prompt size quality :
  fixed_fields (generation_request w prompt size quality).
Proof. split; reflexivity. Qed.

(** C6: whatever the command line and whatever format the file is saved in,
    every request the script posts has [n = 1] and [output_format = "png"]
    in its JSON body. *)
Theorem request_body_has_n_1_and_png (w : World) :
  (forall prompt output_path size quality output_format r,
      In (HttpPost r)
        (trace (generate_image w prompt output_path size quality output_format)) ->
      fixed_fields r)
  /\ (forall items r, In (HttpPost r) (trace (script w items)) -> fixed_fields r).
Proof.
  split.
  - intros prompt output_path size quality output_format r Hin.
    pose proof (generate_image_posts w prompt output_path size quality output_format) as H.
    rewrite List.Forall_forall in H. rewrite (H _ Hin r eq_refl).
    apply generation_request_fixed_fields.
  - intros items r Hin.
    assert (H : Forall (fun e => forall r, e = HttpPost r -> fixed_fields r)
                  (trace (script w items))).
    { apply script_events; try (intros; discriminate).
      intros args prompt output_path _ _.
      eapply Forall_impl; [ apply generate_image_posts | ].
      intros e He r' ->. rewrite (He r' eq_refl).
      apply generation_request_fixed_fields. }
    rewrite List.Forall_forall in H. exact (H _ Hin r eq_refl).
Qed.

Lemma request_body_has_n_1_and_png_witness :
  fixed_fields (generation_request (sample_world sample_rgba)
                  "a fern" "1536x1024" "high").
Proof.
  apply (proj2 (request_body_has_n_1_and_png (sample_world sample_rgba))
           [Positional "a fern"; Positional "out/fern.jpg"]).
  vm_compute. do 3 right. left. reflexivity.
Defined.

(** ** Saving *)

Lemma lower_upper_char c : Str.lower_char (Str.upper_char c) = Str.lower_char c.
Proof. destruct c as [[] [] [] [] [] [] [] []]; reflexivity. Qed.

Lemma lower_upper s : Str.lower (Str.upper s) = Str.lower s.
Proof.
  induction s as [| c s IH]; simpl; [ reflexivity | ].
  rewrite lower_upper_char, IH. reflexivity.
Qed.

(** An uppercased format that reads WEBP or JPEG comes from a format of the
    first two branches. *)
Lemma upper_is_encoder f :
  Str.upper f = "WEBP" \/ Str.upper f = "JPEG" ->
  is_webp f = true \/ is_jpeg f = true.
Proof.
  unfold is_webp, is_jpeg. rewrite <- (lower_upper f).
  intros [-> | ->]; [ left | right ]; reflexivity.
Qed.

Lemma decode_and_save_image_saves w b64_data output_path output_format quality :
  Forall (saves_as output_path (target_format output_format output_path) quality)
    (trace (decode_and_save_image w b64_data output_path output_format quality)).
Proof.
  unfold decode_and_save_image, saves_as, save_rule.
  destruct (is_webp _) eqn:Ew; [ | destruct (is_jpeg _) eqn:Ej ];
    unfold save, flatten_rgba, open_b64, tuple_index, TypeError, IndexError;
    trace_forall;
    try (intros c H; try discriminate H; injection H as <-; simpl; auto).
Qed.

Lemma generate_image_saves w prompt output_path size quality output_format :
  Forall (saves_as output_path (target_format output_format output_path)
            (conversion_quality quality))
    (trace (generate_image w prompt output_path size quality output_format)).
Proof.
  unfold generate_image.
  trace_forall_with ltac:(apply (decode_and_save_image_saves _ _ _ (Some _))).
  all: unfold post, print, request_failed, py_in, py_getitem, py_first,
         raise_for_status, response_json, TypeError, KeyError, IndexError.
  all: trace_forall.
  all: intros c H; discriminate H.
Qed.

Lemma conversion_quality_of_lower q k :
  Str.lower q = k -> conversion_quality q = default 95 (quality_map !! k).
Proof. intros <-. reflexivity. Qed.

Lemma jpeg_is_not_webp f : is_jpeg f = true -> is_webp f = false.
Proof.
  unfold is_jpeg, is_webp. intros H.
  destruct (String.eqb_spec (Str.lower f) "webp") as [E | _]; [ | reflexivity ].
  rewrite E in H. discriminate H.
Qed.

(** C2: in the JPEG branch an RGBA picture is pasted on a white RGB picture
    with its fourth band as the mask, and that three-band picture is what is
    saved; a picture of any other mode is saved as it is.  Both saves carry
    the quality. *)
Theorem jpeg_branch_flattens_rgba (w : World) (s : string) (image : PIL.Image)
    (output_path : string) (output_format : option string) (quality : Z) :
  image_open w s = inr image ->
  is_jpeg (target_format output_format output_path) = true ->
  (PIL.mode image = "RGBA" ->
   forall alpha, nth_error (PIL.bands image) 3 = Some alpha ->
     let flat := PIL.paste (white_background image) image alpha in
     trace (decode_and_save_image w (JStr s) output_path output_format quality)
       = [Save (PIL.mkSave output_path "JPEG" (Some quality) None flat)]
     /\ PIL.mode flat = "RGB"
     /\ PIL.size flat = PIL.size image
     /\ length (PIL.bands flat) = 3%nat)
  /\ (PIL.mode image <> "RGBA" ->
      trace (decode_and_save_image w (JStr s) output_path output_format quality)
        = [Save (PIL.mkSave output_path "JPEG" (Some quality) None image)]).
Proof.
  intros Hopen Hjpeg. pose proof (jpeg_is_not_webp _ Hjpeg) as Hwebp.
  unfold decode_and_save_image, open_b64. rewrite Hopen, Hwebp, Hjpeg.
  cbn [lift]. rewrite bind_ret.
  unfold flatten_rgba, tuple_index, PIL.split, save, white_background. split.
  - intros Hmode alpha Halpha. rewrite Hmode, Halpha. cbn [String.eqb Ascii.eqb].
    split; [ | split; [ reflexivity | split; [ reflexivity | ] ] ].
    + simpl. destruct (image_save w _); reflexivity.
    + unfold PIL.paste, PIL.new. cbn [PIL.bands].
      destruct (PIL.bands image) as [| b0 [| b1 [| b2 [| b3 rest]]]];
        try discriminate Halpha. reflexivity.
  - intros Hmode. apply String.eqb_neq in Hmode. rewrite Hmode.
    simpl. destruct (image_save w _); reflexivity.
Qed.

Lemma jpeg_branch_flattens_rgba_witness :
  trace (decode_and_save_image (sample_world sample_rgba) (JStr "aGVybw==")
           "out/fern.JPG" None 95)
  = [Save (PIL.mkSave "out/fern.JPG" "JPEG" (Some 95) None
             (PIL.mkImage "RGB" (2%nat, 1%nat) [[10; 255]; [30; 255]; [50; 255]]))].
Proof.
  refine (proj1 (proj1 (jpeg_branch_flattens_rgba (sample_world sample_rgba)
            "aGVybw==" sample_rgba "out/fern.JPG" None 95 _ _) _ [255; 0] _));
    reflexivity.
Defined.

(** Where Pillow's blend is exact: a fully opaque pixel keeps its sample, a
    fully transparent one shows the white background. *)
Lemma blend8_opaque out inp : 0 <= inp <= 255 -> PIL.blend8 255 out inp = inp.
Proof.
  intros H. unfold PIL.blend8, PIL.div255.
  replace (out * (255 - 255) + inp * 255) with (inp * 255) by lia.
  rewrite !Z.shiftr_div_pow2 by lia. change (2 ^ 8) with 256.
  destruct (Z_le_gt_dec inp 128) as [Hle | Hgt].
  - assert (E : (inp * 255 + 128) / 256 = inp).
    { symmetry. apply Z.div_unique with (r := 128 - inp); lia. }
    rewrite E. symmetry. apply Z.div_unique with (r := 128); lia.
  - assert (E : (inp * 255 + 128) / 256 = inp - 1).
    { symmetry. apply Z.div_unique with (r := 384 - inp); lia. }
    rewrite E. symmetry. apply Z.div_unique with (r := 127); lia.
Qed.

Lemma blend8_transparent inp : PIL.blend8 0 255 inp = 255.
Proof.
  unfold PIL.blend8. replace (255 * (255 - 0) + inp * 0) with 65025 by lia.
  reflexivity.
Qed.

(** C8: a format that is neither webp nor jpg/jpeg is saved under its
    uppercased name, without quality (and without method); the format is the
    one given, else the lowercased extension of the path, else ["png"]. *)
Theorem other_formats_saved_uppercased (w : World) (s : string)
    (image : PIL.Image) (output_path : string) (output_format : option string)
    (quality : Z) :
  image_open w s = inr image ->
  is_webp (target_format output_format output_path) = false ->
  is_jpeg (target_format output_format output_path) = false ->
  trace (decode_and_save_image w (JStr s) output_path output_format quality)
    = [Save (PIL.mkSave output_path
               (Str.upper (target_format output_format output_path))
               None None image)]
  /\ (forall f, output_format = Some f ->
        target_format output_format output_path = f)
  /\ (output_format = None ->
        target_format output_format output_path
        = Str.or_else
            (Str.lower (Str.drop 1 (Pathlib.suffix (Pathlib.of_string output_path))))
            "png")
  /\ (output_format = None ->
      Pathlib.suffix (Pathlib.of_string output_path) = "" ->
        target_format output_format output_path = "png").
Proof.
  intros Hopen Hwebp Hjpeg. repeat split.
  - unfold decode_and_save_image, open_b64, save. rewrite Hopen, Hwebp, Hjpeg.
    simpl. destruct (image_save w _); reflexivity.
  - intros f ->. reflexivity.
  - intros ->. reflexivity.
  - intros -> Hs. unfold target_format, format_of_path. rewrite Hs. reflexivity.
Qed.

Lemma other_formats_saved_uppercased_witness :
  trace (decode_and_save_image (sample_world sample_rgba) (JStr "aGVybw==")
           "out/fern.Tiff" None 95)
  = [Save (PIL.mkSave "out/fern.Tiff" "TIFF" None None sample_rgba)]
  /\ target_format None "out/fern" = "png".
Proof.
  split.
  - refine (proj1 (other_formats_saved_uppercased (sample_world sample_rgba)
              "aGVybw==" sample_rgba "out/fern.Tiff" None 95 _ _ _)); reflexivity.
  - refine (proj2 (proj2 (proj2 (other_formats_saved_uppercased
              (sample_world sample_rgba) "aGVybw==" sample_rgba "out/fern" None 95
              _ _ _))) _ _); reflexivity.
Defined.

(** ** An answer without picture *)

Lemma fails_bind {A B} (m : run A) (k : A -> run B) :
  harmless m -> (forall a, snd m = Return a -> fails (k a)) -> fails (bind m k).
Proof.
  destruct m as [t [a | e | c]]; simpl; intros [Hs Ht] Hk.
  - destruct (Hk a eq_refl) as [[Hs' Ht'] Hr]. unfold fails, harmless, trace in *.
    destruct (k a) as [t' r]; simpl in *.
    repeat split; auto. apply Forall_app; auto.
  - repeat split; auto; discriminate.
  - repeat split; auto; discriminate.
Qed.

Lemma bind_emit_ret {A B} (e : event) (a : A) (k : A -> run B) :
  bind (emit e ;;; ret a) k = (emit e ;;; k a).
Proof. unfold bind, emit, ret. simpl. destruct (k a). reflexivity. Qed.

Lemma harmless_print {s m} : harmless (print s m).
Proof. split; [ exact I | repeat constructor; intros c H; discriminate H ]. Qed.

Lemma harmless_mkdir w p : harmless (mkdir w p).
Proof.
  unfold mkdir, harmless. destruct (path_mkdir w p); simpl;
    (split; [ exact I | repeat constructor; intros c H; discriminate H ]).
Qed.

Lemma generate_image_without_data w prompt output_path size quality
    output_format resp r :
  (forall req, requests_post w req = inr resp) ->
  json_body resp = Some r ->
  lacks_data r ->
  fails (generate_image w prompt output_path size quality output_format).
Proof.
  intros Hpost Hjson Hlacks. unfold generate_image.
  apply fails_bind; [ apply harmless_print | intros _ _ ].
  apply fails_bind; [ apply harmless_print | intros _ _ ].
  match goal with |- fails (bind ?m _) => set (T := m) end.
  assert (HT : harmless T /\ forall a, snd T = Return a -> a = r).
  { subst T. unfold post, raise_for_status, response_json, request_failed, print.
    rewrite Hpost. cbn [lift]. rewrite bind_emit_ret, Hjson.
    destruct ((400 <=? status_code resp) && (status_code resp <? 600));
      simpl; rewrite ?Hjson; simpl;
      (repeat split;
       [ repeat constructor; intros c H; discriminate H
       | intros a H; congruence ]). }
  destruct HT as [HT Hr]. apply fails_bind; [ exact HT | ].
  intros a Ha. apply Hr in Ha. subst a. clear T HT Hr.
  unfold py_in, py_getitem, print, TypeError, KeyError.
  destruct Hlacks as [Hd | Hd]; destruct r; simpl in Hd; try discriminate Hd;
    try rewrite Hd;
    repeat match goal with
    | |- context [ret (?f ?x ?y)] => destruct (f x y)
    end; simpl;
    (repeat split;
     [ repeat constructor; intros c H; discriminate H
     | intros a H; discriminate H ]).
Qed.

Lemma exits_1_bind {A B} (m : run A) (k : A -> run B) :
  harmless m ->
  (forall a, snd m = Return a -> exits_1_unsaved (k a)) ->
  exits_1_unsaved (bind m k).
Proof.
  destruct m as [t [a | e | c]]; simpl; intros [Hs Ht] Hk.
  - destruct (Hk a eq_refl) as [Hs' Ht']. unfold exits_1_unsaved, exit_status, trace in *.
    destruct (k a) as [t' r]; simpl in *. split; auto. apply Forall_app; auto.
  - split; auto.
  - split; auto.
Qed.

Lemma try_report_exits_1 {A} (m : run A) :
  fails m ->
  exits_1_unsaved (try_except (m ;;; ret tt) is_Exception report_error).
Proof.
  destruct m as [t [a | e | c]]; intros [[Hs Ht] Hr]; simpl in *.
  - destruct (Hr a eq_refl).
  - split; [ reflexivity | ]. apply Forall_app. split; [ exact Ht | ].
    repeat constructor. intros c H. discriminate H.
  - split; [ exact Hs | exact Ht ].
Qed.

Lemma usage_error_exits_1 m :
  exits_1_unsaved (print Stderr m ;;; emit PrintHelp ;;; @sys_exit unit 1).
Proof. split; [ reflexivity | repeat constructor; intros c H; discriminate H ]. Qed.

Lemma main_args_without_picture w args :
  (forall prompt output_path,
      fails (generate_image w prompt output_path (ns_size args) (ns_quality args) None)) ->
  exits_1_unsaved (main_args w args).
Proof.
  intros Hgen.
  assert (Hcontent : forall t s, exits_1_unsaved (content_type_mode w args t s)).
  { intros t s. unfold content_type_mode.
    destruct (ns_prompt args) as [p |]; [ destruct (Str.truthy p) | ];
      try apply usage_error_exits_1.
    apply try_report_exits_1. unfold generate_content_image.
    apply fails_bind; [ apply harmless_mkdir | intros _ _ ].
    do 5 (apply fails_bind; [ apply harmless_print | intros _ _ ]).
    apply Hgen. }
  assert (Hcustom : exits_1_unsaved (custom_path_mode w args)).
  { unfold custom_path_mode.
    destruct (ns_prompt args) as [p |], (ns_output args) as [o |];
      try apply usage_error_exits_1.
    destruct (Str.truthy p && Str.truthy o); try apply usage_error_exits_1.
    apply exits_1_bind; [ apply harmless_mkdir | intros _ _ ].
    apply try_report_exits_1, Hgen. }
  unfold main_args.
  destruct (ns_type args) as [t |], (ns_slug args) as [s |]; auto.
  destruct (Str.truthy t && Str.truthy s); auto.
Qed.

(** C4: when the API answers with a JSON body that has no "data" field, or
    an empty list under it, the script exits with status 1 and never calls
    [image.save]: no picture is written. *)
Theorem response_without_data_exits_1 (w : World) (items : list cli_item)
    (args : Namespace) (resp : http_response) (r : json) :
  parse_items parser_positionals items ns_defaults = inr args ->
  (forall req, requests_post w req = inr resp) ->
  json_body resp = Some r ->
  lacks_data r ->
  exit_status (script w items) = 1
  /\ forall c, ~ In (Save c) (trace (script w items)).
Proof.
  intros Hparse Hpost Hjson Hlacks.
  assert (H : exits_1_unsaved (script w items)).
  { unfold script, main, parse_args. rewrite Hparse, bind_ret.
    destruct (negb _); [ split; [ reflexivity | repeat constructor; intros c H; discriminate H ] | ].
    rewrite bind_ret. apply main_args_without_picture.
    intros prompt output_path.
    eapply generate_image_without_data; eauto. }
  destruct H as [Hs Ht]. split; [ exact Hs | ].
  intros c Hin. rewrite List.Forall_forall in Ht. exact (Ht _ Hin c eq_refl).
Qed.

Lemma response_without_data_exits_1_witness :
  exit_status (script world_without_data
                 [Positional "a fern"; Positional "out/fern.webp"]) = 1
  /\ forall c, ~ In (Save c)
       (trace (script world_without_data
                 [Positional "a fern"; Positional "out/fern.webp"])).
Proof.
  apply (response_without_data_exits_1 world_without_data
           [Positional "a fern"; Positional "out/fern.webp"]
           (mkNamespace (Some "a fern") (Some "out/fern.webp") None None
              "1536x1024" "high")
           response_without_data (JDict [("created", JInt 1762214400)])).
  - reflexivity.
  - intros req. reflexivity.
  - reflexivity.
  - left. reflexivity.
Defined.

(** ** The two modes of [main] *)

Lemma find_option_name flag a : find_option flag = Some a -> arg_name a = flag.
Proof.
  unfold find_option. intros H. apply List.find_some in H as [_ H].
  apply String.eqb_eq in H. exact H.
Qed.

Lemma find_option_in flag a : find_option flag = Some a -> In a parser_options.
Proof. unfold find_option. intros H. apply List.find_some in H as [H _]. exact H. Qed.

(** A field that only the option [flag] stores keeps its value when [flag]
    is not on the command line. *)
Lemma parse_items_untouched {V} (get : Namespace -> V) (flag : string) :
  (forall a v ns, arg_name a <> flag -> get (store a v ns) = get ns) ->
  (forall a, In a parser_positionals -> arg_name a <> flag) ->
  forall items ps ns ns',
    (forall a, In a ps -> In a parser_positionals) ->
    has_option flag items = false ->
    parse_items ps items ns = inr ns' ->
    get ns' = get ns.
Proof.
  intros Hstore Hpos. induction items as [| [v | f v |] items IH];
    intros ps ns ns' Hps Hno Hparse; simpl in *.
  - congruence.
  - destruct ps as [| a ps]; [ discriminate | ].
    destruct (check_value a v); [ | discriminate ].
    rewrite (IH _ _ _ (fun b Hb => Hps b (or_intror Hb)) Hno Hparse).
    apply Hstore, Hpos, Hps. left. reflexivity.
  - apply orb_false_elim in Hno as [Hf Hno].
    destruct (find_option f) as [a |] eqn:Ea; [ | discriminate ].
    destruct (check_value a v); [ | discriminate ].
    rewrite (IH _ _ _ Hps Hno Hparse). apply Hstore.
    rewrite (find_option_name _ _ Ea). apply String.eqb_neq. exact Hf.
  - discriminate.
Qed.

Ltac store_cases :=
  unfold store;
  repeat match goal with
  | |- context [String.eqb ?x ?y] =>
      destruct (String.eqb_spec x y); try congruence
  end; try reflexivity.

Lemma parse_items_no_type items args :
  parse_items parser_positionals items ns_defaults = inr args ->
  has_option "--type" items = false -> ns_type args = None.
Proof.
  intros Hparse Hno.
  apply (parse_items_untouched ns_type "--type") with (ps := parser_positionals)
    (ns := ns_defaults) (ns' := args) in Hno; auto.
  - intros a v ns Hne. store_cases.
  - intros a [<- | [<- | []]]; discriminate.
Qed.

Lemma parse_items_no_slug items args :
  parse_items parser_positionals items ns_defaults = inr args ->
  has_option "--slug" items = false -> ns_slug args = None.
Proof.
  intros Hparse Hno.
  apply (parse_items_untouched ns_slug "--slug") with (ps := parser_positionals)
    (ns := ns_defaults) (ns' := args) in Hno; auto.
  - intros a v ns Hne. store_cases.
  - intros a [<- | [<- | []]]; discriminate.
Qed.

Lemma main_parsed w items args :
  parse_items parser_positionals items ns_defaults = inr args ->
  main w items = main_args w args.
Proof. intros H. unfold main, parse_args. rewrite H. apply bind_ret. Qed.

(** C10: [main] takes the content-type branch exactly when [--type] and
    [--slug] both have a non-empty value.  With only one of them on the
    command line it runs the custom-path branch, just as if neither had been
    given: without a prompt and an output it prints the custom-path usage
    error and exits with 1, otherwise it generates to the positional output
    path. *)
Theorem lone_type_or_slug_is_custom_path_mode (w : World)
    (items : list cli_item) (args : Namespace) :
  parse_items parser_positionals items ns_defaults = inr args ->
  (forall t s, ns_type args = Some t -> ns_slug args = Some s ->
               Str.truthy t = true -> Str.truthy s = true ->
               main w items = content_type_mode w args t s)
  /\ (has_option "--type" items = false \/ has_option "--slug" items = false ->
      main w items = custom_path_mode w args
      /\ main w items = main_args w (without_type_slug args)
      /\ (Str.truthy_opt (ns_prompt args) && Str.truthy_opt (ns_output args) = false ->
          main w items
          = ([Print Stderr MsgPromptOutputRequired; PrintHelp], Exited 1))
      /\ (forall prompt output,
            ns_prompt args = Some prompt -> ns_output args = Some output ->
            Str.truthy prompt = true -> Str.truthy output = true ->
            main w items
            = (mkdir w (Pathlib.parent (Pathlib.of_string output)) ;;;
               try_except
                 (generate_image w prompt (Pathlib.str (Pathlib.of_string output))
                    (ns_size args) (ns_quality args) None ;;; ret tt)
                 is_Exception report_error))).
Proof.
  intros Hparse. rewrite (main_parsed _ _ _ Hparse). split.
  - intros t s Ht Hs Htt Hst. unfold main_args. rewrite Ht, Hs, Htt, Hst. reflexivity.
  - intros Hone.
    assert (Hcustom : main_args w args = custom_path_mode w args).
    { unfold main_args. destruct Hone as [H | H].
      - rewrite (parse_items_no_type _ _ Hparse H). reflexivity.
      - rewrite (parse_items_no_slug _ _ Hparse H).
        destruct (ns_type args); reflexivity. }
    rewrite Hcustom. repeat split.
    + intros Hmissing. unfold custom_path_mode.
      destruct (ns_prompt args) as [p |], (ns_output args) as [o |];
        simpl in Hmissing; try rewrite Hmissing; reflexivity.
    + intros prompt output Hp Ho Htp Hto. unfold custom_path_mode.
      rewrite Hp, Ho, Htp, Hto. reflexivity.
Qed.

Lemma lone_type_or_slug_is_custom_path_mode_witness :
  main (sample_world sample_rgb)
    [Optional "--type" "news"; Positional "a fern"; Positional "out/fern.png"]
  = custom_path_mode (sample_world sample_rgb)
      (mkNamespace (Some "a fern") (Some "out/fern.png") (Some "news") None
         "1536x1024" "high").
Proof.
  refine (proj1 (proj2 (lone_type_or_slug_is_custom_path_mode
            (sample_world sample_rgb)
            [Optional "--type" "news"; Positional "a fern"; Positional "out/fern.png"]
            (mkNamespace (Some "a fern") (Some "out/fern.png") (Some "news") None
               "1536x1024" "high") _) _)).
  - reflexivity.
  - right. reflexivity.
Defined.

(** ** What the parser checks *)

(** A property of the namespace that every store of a checked value keeps
    holds of what [parse_items] returns. *)
Lemma parse_items_invariant (Inv : Namespace -> Prop) :
  (forall a v ns,
      In a parser_positionals \/ In a parser_options ->
      check_value a v = true -> Inv ns -> Inv (store a v ns)) ->
  forall items ps ns ns',
    (forall a, In a ps -> In a parser_positionals) ->
    Inv ns -> parse_items ps items ns = inr ns' -> Inv ns'.
Proof.
  intros Hstore. induction items as [| [v | f v |] items IH];
    intros ps ns ns' Hps Hinv Hparse; simpl in *; [ | | | discriminate ].
  - congruence.
  - destruct ps as [| a ps]; [ discriminate | ].
    destruct (check_value a v) eqn:Ec; [ | discriminate ].
    apply (IH ps (store a v ns)); auto.
    + intros b Hb. apply Hps. right. exact Hb.
    + apply Hstore; auto. left. apply Hps. left. reflexivity.
  - destruct (find_option f) as [a |] eqn:Ea; [ | discriminate ].
    destruct (check_value a v) eqn:Ec; [ | discriminate ].
    apply (IH ps (store a v ns)); auto.
    apply Hstore; auto. right. eapply find_option_in, Ea.
Qed.

Lemma existsb_eqb_In v l : existsb (String.eqb v) l = true -> In v l.
Proof.
  intros H. apply List.existsb_exists in H as (x & Hin & Hx).
  apply String.eqb_eq in Hx. subst x. exact Hin.
Qed.

Ltac each_argument H :=
  unfold parser_positionals, parser_options in H; simpl in H;
  repeat match type of H with
  | _ \/ _ => destruct H as [H | H]
  | False => destruct H
  end; subst.

Lemma parsed_quality_in_choices items args :
  parse_items parser_positionals items ns_defaults = inr args ->
  In (ns_quality args) quality_choices.
Proof.
  apply (parse_items_invariant (fun ns => In (ns_quality ns) quality_choices)); auto.
  - intros a v ns Ha Hc Hinv. each_argument Ha; try exact Hinv.
    apply existsb_eqb_In in Hc. exact Hc.
  - unfold quality_choices. simpl. tauto.
Qed.

Lemma parsed_type_in_choices items args t :
  parse_items parser_positionals items ns_defaults = inr args ->
  ns_type args = Some t -> In t type_choices.
Proof.
  intros Hparse. revert t.
  apply (parse_items_invariant
           (fun ns => forall t, ns_type ns = Some t -> In t type_choices))
    with (4 := Hparse); auto.
  - intros a v ns Ha Hc Hinv. each_argument Ha; try exact Hinv.
    intros t [= <-]. apply existsb_eqb_In in Hc. exact Hc.
  - intros t H. discriminate H.
Qed.

Lemma length_append (a b : string) :
  String.length (a +:+ b) = (String.length a + String.length b)%nat.
Proof. induction a as [| c a IH]; simpl; [ reflexivity | rewrite IH; reflexivity ]. Qed.

Lemma longer_than_all_length l s :
  In s l -> (String.length s < String.length (longer_than_all l))%nat.
Proof.
  induction l as [| h l IH]; simpl; [ tauto | ].
  rewrite length_append. intros [-> | H].
  - assert (0 < String.length (longer_than_all l))%nat; [ | lia ].
    clear. induction l as [| h l IH]; simpl; [ lia | ].
    rewrite length_append. lia.
  - apply IH in H. lia.
Qed.

(** C7 as stated fails for the size: no finite list holds every size the
    parser accepts ([--size] is declared without [choices]). *)
Lemma size_has_no_choice_list :
  arg_choices arg_size = None
  /\ parse_items parser_positionals
       [Positional "a fern"; Positional "fern.png"; Optional "--size" "banana"]
       ns_defaults
     = inr (mkNamespace (Some "a fern") (Some "fern.png") None None "banana" "high")
  /\ ~ (exists size_choices : list string,
          forall items args,
            parse_items parser_positionals items ns_defaults = inr args ->
            In (ns_size args) size_choices).
Proof.
  split; [ reflexivity | split; [ reflexivity | ] ].
  intros [size_choices H].
  specialize (H [Optional "--size" (longer_than_all size_choices)]
                (mkNamespace None None None None (longer_than_all size_choices) "high")
                eq_refl).
  simpl in H. apply longer_than_all_length in H. lia.
Qed.

(** C7, amended: the parser checks the quality against its four choices
    and the size against nothing: any string is accepted as the size; and
    the script hands both values to the request as they are. *)
Theorem only_quality_has_choices :
  (forall items args,
      parse_items parser_positionals items ns_defaults = inr args ->
      In (ns_quality args) quality_choices)
  /\ (forall size, check_value arg_size size = true)
  /\ (forall prompt output size,
        parse_items parser_positionals
          [Positional prompt; Positional output; Optional "--size" size] ns_defaults
        = inr (mkNamespace (Some prompt) (Some output) None None size "high"))
  /\ (forall w items args r,
        parse_items parser_positionals items ns_defaults = inr args ->
        In (HttpPost r) (trace (script w items)) ->
        assoc "size" (body r) = Some (JStr (ns_size args))
        /\ assoc "quality" (body r) = Some (JStr (ns_quality args))).
Proof.
  split; [ exact parsed_quality_in_choices | ].
  split; [ reflexivity | ]. split; [ reflexivity | ].
  intros w items args r Hparse Hin.
  assert (H : Forall (sent_as_given args) (trace (script w items))).
  { apply script_events; try (intros; intros r' Hr'; discriminate Hr').
    intros args' prompt output_path Hparse' _.
    assert (args' = args) by congruence. subst args'.
    eapply Forall_impl; [ apply generate_image_posts | ].
    intros e He r' ->. rewrite (He r' eq_refl). split; reflexivity. }
  rewrite List.Forall_forall in H. exact (H _ Hin r eq_refl).
Qed.

Lemma only_quality_has_choices_witness :
  In "high" quality_choices
  /\ assoc "size"
       (body (generation_request (sample_world sample_rgb) "a fern" "banana" "high"))
     = Some (JStr "banana").
Proof.
  pose proof only_quality_has_choices as (Hq & _ & _ & Hsent).
  split.
  - apply (Hq [Positional "a fern"; Positional "fern.png"; Optional "--size" "banana"]
              (mkNamespace (Some "a fern") (Some "fern.png") None None "banana" "high")).
    reflexivity.
  - refine (proj1 (Hsent (sample_world sample_rgb)
              [Positional "a fern"; Positional "fern.png"; Optional "--size" "banana"]
              (mkNamespace (Some "a fern") (Some "fern.png") None None "banana" "high")
              _ _ _)).
    + reflexivity.
    + vm_compute. do 3 right. left. reflexivity.
Defined.

(** ** The path of a content image *)

Lemma splitroot_relative c r :
  Ascii.eqb "/" c = false -> Pathlib.splitroot (String c r) = ("", String c r).
Proof.
  destruct c as [[] [] [] [] [] [] [] []]; intros H;
    first [ reflexivity | discriminate H ].
Qed.

Lemma of_string_relative s :
  Str.startswith "/" s = false ->
  Pathlib.of_string s
  = Pathlib.mkPath "" (List.filter Pathlib.keep_part (Str.split "/" s)).
Proof.
  destruct s as [| c r]; [ reflexivity | ]. cbn [Str.startswith]. intros H.
  unfold Pathlib.of_string. rewrite splitroot_relative; [ reflexivity | ].
  destruct (Ascii.eqb "/" c); [ discriminate H | reflexivity ].
Qed.

Lemma relative_append s t :
  Str.truthy s = true ->
  Str.startswith "/" s = false -> Str.startswith "/" (s +:+ t) = false.
Proof. destruct s as [| a s]; simpl; [ discriminate | auto ]. Qed.

(** The slug is one segment of the path: below the content directory when it
    does not start with a slash. *)
Lemma content_output_path_convention w content_type slug :
  In content_type type_choices ->
  Str.truthy slug = true ->
  Str.startswith "/" slug = false ->
  Pathlib.str (content_output_path w content_type slug)
  = expected_output_path w content_type slug.
Proof.
  intros Ht Hne Hrel. unfold expected_output_path. f_equal.
  unfold content_output_path, content_output_dir, Pathlib.joinpath, convention_path.
  pose proof (relative_append slug ".webp" Hne Hrel) as Hrel'.
  rewrite (of_string_relative _ Hrel').
  unfold type_choices in Ht. simpl in Ht.
  destruct Ht as [<- | [<- | [<- | []]]];
    unfold Pathlib.join; simpl; rewrite <- !app_assoc; reflexivity.
Qed.

Lemma in_choices_truthy t : In t type_choices -> Str.truthy t = true.
Proof. intros [<- | [<- | [<- | []]]]; reflexivity. Qed.

(** C3 as stated fails: a slug that starts with a slash takes the picture
    out of the content directory, because a rooted segment replaces the path
    it is joined to. *)
Lemma rooted_slug_leaves_content_directory :
  parse_items parser_positionals
    [Optional "--type" "news"; Optional "--slug" "/tmp/fern"; Positional "a fern"]
    ns_defaults
  = inr (mkNamespace (Some "a fern") None (Some "news") (Some "/tmp/fern")
           "1536x1024" "high")
  /\ In (Save (PIL.mkSave "/tmp/fern.webp" "WEBP" (Some 95) (Some 6) sample_rgb))
       (trace (script (sample_world sample_rgb)
                 [Optional "--type" "news"; Optional "--slug" "/tmp/fern";
                  Positional "a fern"]))
  /\ expected_output_path (sample_world sample_rgb) "news" "/tmp/fern"
     = "public/images/webp/news/tmp/fern.webp"
  /\ "/tmp/fern.webp"
     <> expected_output_path (sample_world sample_rgb) "news" "/tmp/fern".
Proof.
  split; [ reflexivity | ]. split.
  - vm_compute. do 9 right. left. reflexivity.
  - split; [ reflexivity | ]. vm_compute. discriminate.
Qed.

(** C3, amended: with [--type] and a non-empty [--slug] that does not start
    with a slash, every picture the script saves goes to
    [public/images/webp/{type}/{slug}.webp] below the project root; the
    positional output plays no part in the run. *)
Theorem content_image_saved_under_convention (w : World)
    (items : list cli_item) (args : Namespace) (t s : string) :
  parse_items parser_positionals items ns_defaults = inr args ->
  ns_type args = Some t ->
  ns_slug args = Some s ->
  Str.truthy s = true ->
  Str.startswith "/" s = false ->
  (forall c, In (Save c) (trace (script w items)) ->
             PIL.save_path c = expected_output_path w t s)
  /\ (forall o, main_args w (with_output o args) = main_args w args).
Proof.
  intros Hparse Ht Hs Hst Hrel.
  pose proof (parsed_type_in_choices _ _ _ Hparse Ht) as Hchoice.
  pose proof (in_choices_truthy _ Hchoice) as Htt.
  split.
  - intros c Hin.
    assert (H : Forall (saved_at (expected_output_path w t s)) (trace (script w items))).
    { apply script_events; try (intros; intros c' Hc'; discriminate Hc').
      intros args' prompt output_path Hparse' Hpath.
      assert (args' = args) by congruence. subst args'.
      unfold output_path_of in Hpath. rewrite Ht, Hs, Htt, Hst in Hpath.
      simpl in Hpath. injection Hpath as <-.
      rewrite content_output_path_convention by assumption.
      eapply Forall_impl; [ apply generate_image_saves | ].
      intros e He c' Hc'. apply (He c' Hc'). }
    rewrite List.Forall_forall in H. exact (H _ Hin c eq_refl).
  - intros o. unfold main_args, with_output. simpl. rewrite Ht, Hs, Htt, Hst.
    reflexivity.
Qed.

Lemma content_image_saved_under_convention_witness :
  PIL.save_path (PIL.mkSave "public/images/webp/tips/winter-care.webp" "WEBP"
                   (Some 95) (Some 6) sample_rgb)
  = expected_output_path (sample_world sample_rgb) "tips" "winter-care".
Proof.
  refine (proj1 (content_image_saved_under_convention (sample_world sample_rgb)
            [Optional "--type" "tips"; Optional "--slug" "winter-care";
             Positional "a fern in winter"; Positional "elsewhere/fern.jpg"]
            (mkNamespace (Some "a fern in winter") (Some "elsewhere/fern.jpg")
               (Some "tips") (Some "winter-care") "1536x1024" "high")
            "tips" "winter-care" _ _ _ _ _) _ _).
  - reflexivity.
  - reflexivity.
  - reflexivity.
  - reflexivity.
  - reflexivity.
  - vm_compute. do 9 right. left. reflexivity.
Defined.

(** * Further properties *)

(** ** Paths written out and read back *)

Lemma split_not_nil sep s : Str.split sep s <> [].
Proof.
  destruct s as [| c r]; simpl; [ discriminate | ].
  destruct (Ascii.eqb c sep); [ discriminate | ].
  destruct (Str.split sep r); discriminate.
Qed.

Lemma split_no_sep sep s :
  Forall (fun x => has_char sep x = false) (Str.split sep s).
Proof.
  induction s as [| c r IH]; simpl; [ repeat constructor | ].
  destruct (Ascii.eqb c sep) eqn:E; [ constructor; [ reflexivity | exact IH ] | ].
  destruct (Str.split sep r) as [| h t]; [ repeat constructor; simpl; rewrite E; reflexivity | ].
  inversion IH; subst. constructor; [ simpl; rewrite E; assumption | assumption ].
Qed.

Lemma split_one sep x : has_char sep x = false -> Str.split sep x = [x].
Proof.
  induction x as [| c r IH]; simpl; [ reflexivity | ].
  intros H. apply orb_false_elim in H as [Hc Hr].
  rewrite Hc, (IH Hr). reflexivity.
Qed.

Lemma split_app sep a b :
  Str.split sep (a +:+ String sep b) = (Str.split sep a ++ Str.split sep b)%list.
Proof.
  induction a as [| c a IH]; simpl.
  - rewrite Ascii.eqb_refl. reflexivity.
  - destruct (Ascii.eqb c sep); [ rewrite IH; reflexivity | ].
    rewrite IH. pose proof (split_not_nil sep a) as Hne.
    destruct (Str.split sep a) as [| h t]; [ congruence | reflexivity ].
Qed.

Lemma split_join parts :
  parts <> [] ->
  Forall (fun x => has_char "/" x = false) parts ->
  Str.split "/" (Str.join "/" parts) = parts.
Proof.
  induction parts as [| x [| y r] IH]; intros Hne Hall; [ congruence | | ].
  - inversion Hall; subst. apply split_one. assumption.
  - inversion Hall; subst.
    change (Str.join "/" (x :: y :: r)) with (x +:+ String "/" (Str.join "/" (y :: r))).
    rewrite split_app, split_one by assumption.
    rewrite IH by (try discriminate; assumption). reflexivity.
Qed.

Lemma filter_keep_all parts :
  Forall part_ok parts -> List.filter Pathlib.keep_part parts = parts.
Proof.
  induction 1 as [| x l [Hk _] _ IH]; simpl; [ reflexivity | ].
  rewrite Hk, IH. reflexivity.
Qed.

Lemma part_ok_no_sep parts :
  Forall part_ok parts -> Forall (fun x => has_char "/" x = false) parts.
Proof. intros H. eapply Forall_impl; [ exact H | ]. intros x [_ Hx]. exact Hx. Qed.

Lemma split_filter_join parts :
  Forall part_ok parts ->
  List.filter Pathlib.keep_part (Str.split "/" (Str.join "/" parts)) = parts.
Proof.
  intros H. destruct parts as [| x r]; [ reflexivity | ].
  rewrite split_join; [ apply filter_keep_all; exact H | discriminate
                      | apply part_ok_no_sep; exact H ].
Qed.

Lemma splitroot_one c r :
  Ascii.eqb "/" c = false ->
  Pathlib.splitroot (String "/" (String c r)) = ("/", String c r).
Proof.
  destruct c as [[] [] [] [] [] [] [] []]; intros H;
    first [ reflexivity | discriminate H ].
Qed.

Lemma splitroot_two c r :
  Ascii.eqb "/" c = false ->
  Pathlib.splitroot (String "/" (String "/" (String c r))) = ("//", String c r).
Proof.
  destruct c as [[] [] [] [] [] [] [] []]; intros H;
    first [ reflexivity | discriminate H ].
Qed.

(** A joined, non-empty list of components starts with no slash. *)
Lemma join_head parts :
  parts <> [] -> Forall part_ok parts ->
  exists c r, Str.join "/" parts = String c r /\ Ascii.eqb "/" c = false.
Proof.
  destruct parts as [| x l]; [ congruence | ]. intros _ H.
  inversion H as [| ? ? [Hk Hs] _]; subst.
  destruct x as [| c x]; [ discriminate Hk | ].
  simpl in Hs. apply orb_false_elim in Hs as [Hc _].
  exists c. destruct l as [| y l].
  - exists x. split; [ reflexivity | ]. rewrite Ascii.eqb_sym. exact Hc.
  - eexists. split; [ reflexivity | ]. rewrite Ascii.eqb_sym. exact Hc.
Qed.

Lemma of_string_str p : wf_path p -> Pathlib.of_string (Pathlib.str p) = p.
Proof.
  destruct p as [rt parts]. intros [Hroot Hparts]. simpl in *.
  unfold Pathlib.str. simpl.
  destruct parts as [| x l].
  - destruct Hroot as [-> | [-> | ->]]; reflexivity.
  - destruct (join_head (x :: l)) as (c & r & Hj & Hc); [ discriminate | assumption | ].
    pose proof (split_filter_join _ Hparts) as Hsf. rewrite Hj in Hsf.
    rewrite Hj.
    destruct Hroot as [-> | [-> | ->]].
    + change (Str.or_else ("" +:+ String c r) ".") with (String c r).
      unfold Pathlib.of_string.
      rewrite splitroot_relative by assumption. rewrite Hsf. reflexivity.
    + change (Str.or_else ("/" +:+ String c r) ".") with (String "/" (String c r)).
      unfold Pathlib.of_string.
      rewrite splitroot_one by assumption. rewrite Hsf. reflexivity.
    + change (Str.or_else ("//" +:+ String c r) ".")
        with (String "/" (String "/" (String c r))).
      unfold Pathlib.of_string.
      rewrite splitroot_two by assumption. rewrite Hsf. reflexivity.
Qed.

Lemma filter_part_ok l :
  Forall (fun x => has_char "/" x = false) l ->
  Forall part_ok (List.filter Pathlib.keep_part l).
Proof.
  induction 1 as [| x l Hx _ IH]; simpl; [ constructor | ].
  destruct (Pathlib.keep_part x) eqn:Hk; [ | exact IH ].
  constructor; [ split; assumption | exact IH ].
Qed.

Lemma splitroot_root s :
  let rt := fst (Pathlib.splitroot s) in rt = "" \/ rt = "/" \/ rt = "//".
Proof.
  destruct s as [| c1 s1]; [ left; reflexivity | ].
  destruct (Ascii.eqb "/" c1) eqn:E1;
    [ | rewrite splitroot_relative by assumption; left; reflexivity ].
  apply Ascii.eqb_eq in E1. subst c1.
  destruct s1 as [| c2 s2]; [ right; left; reflexivity | ].
  destruct (Ascii.eqb "/" c2) eqn:E2;
    [ | rewrite splitroot_one by assumption; right; left; reflexivity ].
  apply Ascii.eqb_eq in E2. subst c2.
  destruct s2 as [| c3 s3]; [ right; right; reflexivity | ].
  destruct (Ascii.eqb "/" c3) eqn:E3;
    [ | rewrite splitroot_two by assumption; right; right; reflexivity ].
  apply Ascii.eqb_eq in E3. subst c3. right; left; reflexivity.
Qed.

Lemma of_string_wf s : wf_path (Pathlib.of_string s).
Proof.
  unfold Pathlib.of_string. pose proof (splitroot_root s) as Hroot.
  destruct (Pathlib.splitroot s) as [rt rel]. split; [ exact Hroot | ].
  apply filter_part_ok, split_no_sep.
Qed.

Lemma Forall_removelast {A} (P : A -> Prop) l : Forall P l -> Forall P (removelast l).
Proof.
  induction 1 as [| x l Hx Hl IH]; simpl; [ constructor | ].
  destruct l; [ constructor | constructor; assumption ].
Qed.

Lemma parent_wf p : wf_path p -> wf_path (Pathlib.parent p).
Proof.
  destruct p as [rt parts]. intros [Hr Hp]. unfold Pathlib.parent. simpl in *.
  destruct parts as [| x l]; [ split; assumption | ].
  split; [ exact Hr | ]. apply (Forall_removelast _ (x :: l)). exact Hp.
Qed.

Lemma join_wf p q : wf_path p -> wf_path q -> wf_path (Pathlib.join p q).
Proof.
  intros [Hrp Hpp] [Hrq Hpq]. unfold Pathlib.join.
  destruct (Str.truthy (Pathlib.root q)); [ split; assumption | ].
  split; [ exact Hrp | ]. simpl. apply Forall_app. split; assumption.
Qed.

Lemma joinpath_wf p seg : wf_path p -> wf_path (Pathlib.joinpath p seg).
Proof. intros H. apply join_wf; [ exact H | apply of_string_wf ]. Qed.

(** X1: writing a path out and reading it back gives the same path, so the
    path [main] hands over as a string is read by [generate_image] as the
    very path [main] built; in particular the format taken from the
    extension is that of the output argument as typed. *)
Theorem path_survives_str (s : string) :
  Pathlib.of_string (Pathlib.str (Pathlib.of_string s)) = Pathlib.of_string s
  /\ format_of_path (Pathlib.str (Pathlib.of_string s)) = format_of_path s.
Proof.
  assert (H : Pathlib.of_string (Pathlib.str (Pathlib.of_string s))
              = Pathlib.of_string s) by apply of_string_str, of_string_wf.
  split; [ exact H | ]. unfold format_of_path. rewrite H. reflexivity.
Qed.

(** ** How a run can end *)

Section Endings.
Context {A B : Type} (codes : Z -> Prop).

Lemma exits_in_bind (m : run A) (k : A -> run B) :
  exits_in codes m -> (forall a, exits_in codes (k a)) ->
  exits_in codes (bind m k).
Proof.
  destruct m as [t [a | e | c]]; unfold exits_in; simpl; intros Hm Hk; auto.
  specialize (Hk a). destruct (k a) as [t' r]; exact Hk.
Qed.

Lemma exits_in_try (m : run A) catches (handler : exn -> run A) :
  exits_in codes m -> (forall e, exits_in codes (handler e)) ->
  exits_in codes (try_except m catches handler).
Proof.
  destruct m as [t [a | e | c]]; unfold exits_in; simpl; intros Hm Hh; auto.
  destruct (catches e); simpl; auto.
  specialize (Hh e). destruct (handler e) as [t' r]; exact Hh.
Qed.

Lemma exits_in_no_exit (m : run A) :
  (forall c, snd m <> Exited c) -> exits_in codes m.
Proof. unfold exits_in. destruct (snd m); intros H; auto. destruct (H code eq_refl). Qed.

Lemma ends_well_exits_in Q (m : run A) : ends_well Q codes m -> exits_in codes m.
Proof. unfold ends_well, exits_in. destruct (snd m); auto. Qed.

Lemma aborts_in_ends_well Q (m : run A) : aborts_in codes m -> ends_well Q codes m.
Proof. unfold ends_well, aborts_in. destruct (snd m); tauto. Qed.

(** [Q] comes from the continuation. *)
Lemma ends_well_bind_right Q (m : run A) (k : A -> run B) :
  (forall t t', Q t' -> Q (t ++ t')%list) ->
  exits_in codes m ->
  (forall a, snd m = Return a -> ends_well Q codes (k a)) ->
  ends_well Q codes (bind m k).
Proof.
  intros HQ. destruct m as [t [a | e | c]]; unfold ends_well, exits_in, trace;
    simpl; intros Hm Hk; auto.
  specialize (Hk a eq_refl). destruct (k a) as [t' [b | e | c]]; simpl in *; auto.
Qed.

(** [Q] comes from the first computation. *)
Lemma ends_well_bind_left Q (m : run A) (k : A -> run B) :
  (forall t t', Q t -> Q (t ++ t')%list) ->
  ends_well Q codes m ->
  (forall a, exits_in codes (k a)) ->
  ends_well Q codes (bind m k).
Proof.
  intros HQ. destruct m as [t [a | e | c]]; unfold ends_well, exits_in, trace;
    simpl; intros Hm Hk; auto.
  specialize (Hk a). destruct (k a) as [t' [b | e | c]]; simpl in *; auto.
Qed.

Lemma ends_well_try Q (m : run A) catches (handler : exn -> run A) :
  ends_well Q codes m ->
  (forall e, aborts_in codes (handler e)) ->
  ends_well Q codes (try_except m catches handler).
Proof.
  destruct m as [t [a | e | c]]; unfold ends_well, aborts_in, trace;
    simpl; intros Hm Hh; auto.
  destruct (catches e); simpl; auto.
  specialize (Hh e). destruct (handler e) as [t' [b | e' | c]]; simpl in *; tauto.
Qed.
End Endings.

Lemma saved_app_l w t t' : saved w t' -> saved w (t ++ t')%list.
Proof. intros (c & Hin & Hs). exists c. split; [ apply in_or_app; auto | exact Hs ]. Qed.

Lemma saved_app_r w t t' : saved w t -> saved w (t ++ t')%list.
Proof. intros (c & Hin & Hs). exists c. split; [ apply in_or_app; auto | exact Hs ]. Qed.

Lemma posted_app_l t t' : posted t' -> posted (t ++ t')%list.
Proof. intros (r & Hin). exists r. apply in_or_app; auto. Qed.

Lemma posted_app_r t t' : posted t -> posted (t ++ t')%list.
Proof. intros (r & Hin). exists r. apply in_or_app; auto. Qed.

(** Splits a goal [exits_in codes m] along the structure of [m]. *)
Ltac exits_in_with leaf :=
  repeat first
    [ leaf
    | apply exits_in_bind; [ | intros ? ]
    | apply exits_in_try; [ | intros ? ]
    | match goal with
      | |- exits_in _ (match ?x with _ => _ end) => destruct x
      | |- exits_in _ (if ?b then _ else _) => destruct b
      end
    | exact I
    | reflexivity
    | (left; reflexivity)
    | (right; reflexivity) ].

Ltac unfold_leaves :=
  unfold post, save, print, mkdir, request_failed, report_error, flatten_rgba,
    open_b64, py_in, py_getitem, py_first, tuple_index, raise_for_status,
    response_json, lift, lift_unit, TypeError, KeyError, IndexError.

Lemma generate_image_exits_1 w prompt output_path size quality output_format :
  exits_in code_1 (generate_image w prompt output_path size quality output_format).
Proof.
  unfold generate_image, decode_and_save_image. unfold_leaves.
  exits_in_with fail.
Qed.

Lemma save_ends_saved w codes c : ends_well (saved w) codes (save w c).
Proof.
  unfold save, ends_well. destruct (image_save w c) eqn:E; simpl; [ exact I | ].
  exists c. split; [ left; reflexivity | exact E ].
Qed.

Lemma decode_and_save_image_ends_saved w b64_data output_path output_format quality :
  ends_well (saved w) code_1
    (decode_and_save_image w b64_data output_path output_format quality).
Proof.
  unfold decode_and_save_image.
  apply ends_well_bind_right; [ apply saved_app_l | | intros image _ ].
  { unfold_leaves. exits_in_with fail. }
  apply ends_well_bind_left; [ apply saved_app_r | | intros; exact I ].
  destruct (is_webp _); [ apply save_ends_saved | ].
  destruct (is_jpeg _); [ | apply save_ends_saved ].
  apply ends_well_bind_right; [ apply saved_app_l | | intros; apply save_ends_saved ].
  unfold_leaves. exits_in_with fail.
Qed.

Lemma aborts_request_failed {A} e : aborts_in code_1 (@request_failed A e).
Proof.
  unfold request_failed, print. destruct e as [msg [r |] | cls msg]; simpl;
    try destruct (json_body r); reflexivity.
Qed.

Lemma aborts_report_error {A} codes e : codes 1 -> aborts_in codes (@report_error A e).
Proof. intros H. exact H. Qed.

Lemma generate_image_ends_saved w prompt output_path size quality output_format :
  ends_well (saved w) code_1
    (generate_image w prompt output_path size quality output_format).
Proof.
  unfold generate_image.
  do 2 (apply ends_well_bind_right; [ apply saved_app_l | exact I | intros _ _ ]).
  apply ends_well_bind_right; [ apply saved_app_l | | intros response_data _ ].
  { apply exits_in_try; [ | intros e; apply ends_well_exits_in with (Q := fun _ => True),
                                      aborts_in_ends_well, aborts_request_failed ].
    unfold_leaves. exits_in_with fail. }
  do 3 (apply ends_well_bind_right;
        [ apply saved_app_l | unfold_leaves; exits_in_with fail | intros ? _ ]).
  do 3 (apply ends_well_bind_right;
        [ apply saved_app_l | unfold_leaves; exits_in_with fail | intros ? _ ]).
  apply ends_well_bind_left;
    [ apply saved_app_r | apply decode_and_save_image_ends_saved | ].
  intros saved_path. unfold_leaves. exits_in_with fail.
Qed.

Lemma generate_image_ends_posted w prompt output_path size quality output_format :
  ends_well posted code_1
    (generate_image w prompt output_path size quality output_format).
Proof.
  unfold generate_image.
  do 2 (apply ends_well_bind_right; [ apply posted_app_l | exact I | intros _ _ ]).
  apply ends_well_bind_left; [ apply posted_app_r | | ].
  - apply ends_well_try; [ | intros e; apply aborts_request_failed ].
    apply ends_well_bind_left; [ apply posted_app_r | | ].
    + unfold post, ends_well. destruct (requests_post w _); simpl; [ exact I | ].
      eexists. left. reflexivity.
    + intros response. unfold_leaves. exits_in_with fail.
  - intros response_data. unfold decode_and_save_image. unfold_leaves.
    exits_in_with fail.
Qed.

Lemma ends_well_and {A} Q1 Q2 codes (m : run A) :
  ends_well Q1 codes m -> ends_well Q2 codes m ->
  ends_well (fun t => Q1 t /\ Q2 t) codes m.
Proof. unfold ends_well. destruct (snd m); auto. Qed.

Lemma ends_well_codes {A} Q (codes codes' : Z -> Prop) (m : run A) :
  (forall c, codes c -> codes' c) -> ends_well Q codes m -> ends_well Q codes' m.
Proof. unfold ends_well. destruct (snd m); auto. Qed.

Lemma saved_and_posted_app_l w t t' :
  saved_and_posted w t' -> saved_and_posted w (t ++ t')%list.
Proof. intros [H1 H2]. split; [ apply saved_app_l | apply posted_app_l ]; assumption. Qed.

Lemma saved_and_posted_app_r w t t' :
  saved_and_posted w t -> saved_and_posted w (t ++ t')%list.
Proof. intros [H1 H2]. split; [ apply saved_app_r | apply posted_app_r ]; assumption. Qed.

Lemma generate_image_ends_well w prompt output_path size quality output_format :
  ends_well (saved_and_posted w) code_1
    (generate_image w prompt output_path size quality output_format).
Proof.
  apply ends_well_and;
    [ apply generate_image_ends_saved | apply generate_image_ends_posted ].
Qed.

Lemma usage_error_ends_well Q m :
  ends_well Q code_1 (print Stderr m ;;; emit PrintHelp ;;; @sys_exit unit 1).
Proof. reflexivity. Qed.

Lemma exits_in_mkdir codes w p : exits_in codes (mkdir w p).
Proof. unfold mkdir; unfold_leaves. exits_in_with fail. Qed.

(** A run of [main] that comes to its end has saved a picture, after a
    request; when it exits, it exits with 1. *)
Lemma main_args_ends_well w args :
  ends_well (saved_and_posted w) code_1 (main_args w args).
Proof.
  assert (Hcontent : forall t s,
             ends_well (saved_and_posted w) code_1 (content_type_mode w args t s)).
  { intros t s. unfold content_type_mode.
    destruct (ns_prompt args) as [p |]; [ destruct (Str.truthy p) | ];
      try apply usage_error_ends_well.
    apply ends_well_try; [ | intros e; reflexivity ].
    apply ends_well_bind_left;
      [ apply saved_and_posted_app_r | | intros; exact I ].
    unfold generate_content_image.
    apply ends_well_bind_right;
      [ apply saved_and_posted_app_l | apply exits_in_mkdir | intros _ _ ].
    do 5 (apply ends_well_bind_right;
          [ apply saved_and_posted_app_l | exact I | intros _ _ ]).
    apply generate_image_ends_well. }
  assert (Hcustom : ends_well (saved_and_posted w) code_1 (custom_path_mode w args)).
  { unfold custom_path_mode.
    destruct (ns_prompt args) as [p |], (ns_output args) as [o |];
      try apply usage_error_ends_well.
    destruct (Str.truthy p && Str.truthy o); try apply usage_error_ends_well.
    apply ends_well_bind_right;
      [ apply saved_and_posted_app_l | apply exits_in_mkdir | intros _ _ ].
    apply ends_well_try; [ | intros e; reflexivity ].
    apply ends_well_bind_left;
      [ apply saved_and_posted_app_r | | intros; exact I ].
    apply generate_image_ends_well. }
  unfold main_args.
  destruct (ns_type args) as [t |], (ns_slug args) as [s |]; auto.
  destruct (Str.truthy t && Str.truthy s); auto.
Qed.

(** X2: a run that ends with status 0 has either only printed the help the
    command line asked for, or has posted a request and called [image.save]
    without the call raising: apart from the help, success is never reported
    without a picture written. *)
Theorem exit_status_0_means_help_or_saved (w : World) (items : list cli_item) :
  exit_status (script w items) = 0 ->
  (parse_items parser_positionals items ns_defaults = inl HelpPrinted
   /\ trace (script w items) = [PrintHelp])
  \/ ((exists c, In (Save c) (trace (script w items)) /\ image_save w c = None)
      /\ (exists r, In (HttpPost r) (trace (script w items)))).
Proof.
  unfold script, main, parse_args.
  destruct (negb _); [ intros H; discriminate H | ]. rewrite bind_ret.
  destruct (parse_items parser_positionals items ns_defaults) as [[why |] | args].
  - intros H. discriminate H.
  - intros _. left. split; reflexivity.
  - rewrite bind_ret. intros H0. right.
    pose proof (main_args_ends_well w args) as H.
    unfold ends_well, exit_status, code_1 in *.
    destruct (snd (main_args w args)) as [a | e | c]; [ exact H | discriminate H0 | ].
    subst c. discriminate H.
Qed.

Lemma exit_status_0_means_help_or_saved_witness :
  (parse_items parser_positionals
     [Positional "a fern"; Positional "out/fern.png"] ns_defaults = inl HelpPrinted
   /\ trace (script (sample_world sample_rgb)
               [Positional "a fern"; Positional "out/fern.png"]) = [PrintHelp])
  \/ ((exists c, In (Save c)
                   (trace (script (sample_world sample_rgb)
                             [Positional "a fern"; Positional "out/fern.png"]))
                 /\ image_save (sample_world sample_rgb) c = None)
      /\ (exists r, In (HttpPost r)
                      (trace (script (sample_world sample_rgb)
                                [Positional "a fern"; Positional "out/fern.png"])))).
Proof.
  apply (exit_status_0_means_help_or_saved (sample_world sample_rgb)
           [Positional "a fern"; Positional "out/fern.png"]).
  reflexivity.
Defined.

(** X3: the three ways of the parser, with the key set.  A command line it
    accepts ends with status 0 or 1.  One it rejects prints the parser's
    error and exits with 2, having done nothing else.  One that asks for the
    help (before any value outside its choices) prints the help and exits
    with 0, having done nothing else. *)
Theorem exit_status_by_parse (w : World) (items : list cli_item) :
  Str.truthy_opt (subscription_key w) = true ->
  (forall args,
      parse_items parser_positionals items ns_defaults = inr args ->
      exit_status (script w items) = 0 \/ exit_status (script w items) = 1)
  /\ (forall why,
        parse_items parser_positionals items ns_defaults = inl (UsageError why) ->
        script w items = ([Print Stderr (MsgUsage why)], Exited 2))
  /\ (parse_items parser_positionals items ns_defaults = inl HelpPrinted ->
      script w items = ([PrintHelp], Exited 0)).
Proof.
  intros Hkey. unfold script, main, parse_args. rewrite Hkey. cbn [negb].
  rewrite bind_ret. repeat split.
  - intros args Hparse. rewrite Hparse, bind_ret.
    pose proof (main_args_ends_well w args) as H.
    unfold ends_well, exit_status, code_1 in *.
    destruct (snd (main_args w args)) as [a | e | c]; auto.
  - intros why Hparse. rewrite Hparse. reflexivity.
  - intros Hparse. rewrite Hparse. reflexivity.
Qed.

Lemma exit_status_by_parse_witness :
  script (sample_world sample_rgb)
    [Positional "a fern"; Positional "fern.png"; Positional "extra"]
  = ([Print Stderr (MsgUsage "unrecognized arguments")], Exited 2)
  /\ script (sample_world sample_rgb)
       [Positional "a fern"; Positional "fern.png"; Positional "extra"; HelpFlag]
     = ([PrintHelp], Exited 0).
Proof.
  split.
  - apply (proj1 (proj2 (exit_status_by_parse (sample_world sample_rgb)
                    [Positional "a fern"; Positional "fern.png"; Positional "extra"]
                    eq_refl)));
      reflexivity.
  - apply (proj2 (proj2 (exit_status_by_parse (sample_world sample_rgb)
                    [Positional "a fern"; Positional "fern.png"; Positional "extra";
                     HelpFlag]
                    eq_refl)));
      reflexivity.
Defined.

Example help_before_a_bad_value :
  script (sample_world sample_rgb) [HelpFlag; Optional "--type" "bogus"]
  = ([PrintHelp], Exited 0)
  /\ script (sample_world sample_rgb) [Optional "--type" "bogus"; HelpFlag]
     = ([Print Stderr (MsgUsage "invalid choice")], Exited 2)
  /\ script world_without_key [HelpFlag]
     = ([Print Stderr MsgKeyRequired], Exited 1).
Proof. repeat split. Qed.

(** ** One request, one save *)

Section Counting.
Context {A B : Type} (kind : event -> bool).

Lemma count_app t t' : count kind (t ++ t') = (count kind t + count kind t')%nat.
Proof. unfold count. rewrite List.filter_app, length_app. reflexivity. Qed.

Lemma count_none t : Forall (none_of kind) t -> count kind t = 0%nat.
Proof.
  unfold count. induction 1 as [| e t He _ IH]; simpl; [ reflexivity | ].
  rewrite He. exact IH.
Qed.

Lemma count_bind (m : run A) (k : A -> run B) n n' :
  (count kind (trace m) <= n)%nat ->
  (forall a, (count kind (trace (k a)) <= n')%nat) ->
  (count kind (trace (bind m k)) <= n + n')%nat.
Proof.
  destruct m as [t [a | e | c]]; unfold trace; simpl; intros Hm Hk; try lia.
  specialize (Hk a). destruct (k a) as [t' r]; simpl in *.
  rewrite count_app. lia.
Qed.

Lemma count_try (m : run A) catches (handler : exn -> run A) n n' :
  (count kind (trace m) <= n)%nat ->
  (forall e, (count kind (trace (handler e)) <= n')%nat) ->
  (count kind (trace (try_except m catches handler)) <= n + n')%nat.
Proof.
  destruct m as [t [a | e | c]]; unfold trace; simpl; intros Hm Hh; try lia.
  destruct (catches e); simpl; try lia.
  specialize (Hh e). destruct (handler e) as [t' r]; simpl in *.
  rewrite count_app. lia.
Qed.
End Counting.

Lemma count_le_0 {A} kind (m : run A) :
  Forall (none_of kind) (trace m) -> (count kind (trace m) <= 0)%nat.
Proof. intros H. rewrite (count_none _ _ H). lia. Qed.

Lemma generate_image_one_post w prompt output_path size quality output_format :
  (count is_post
     (trace (generate_image w prompt output_path size quality output_format)) <= 1)%nat.
Proof.
  unfold generate_image.
  change 1%nat with (0 + (0 + (1 + 0)))%nat.
  apply count_bind; [ apply count_le_0; trace_forall; reflexivity | intros _ ].
  apply count_bind; [ apply count_le_0; trace_forall; reflexivity | intros _ ].
  apply count_bind.
  - change 1%nat with (1 + 0)%nat. apply count_try.
    + change 1%nat with (1 + 0)%nat. apply count_bind.
      * unfold post. destruct (requests_post w _); simpl; unfold count; simpl; lia.
      * intros response. apply count_le_0. unfold_leaves. trace_forall.
    + intros e. apply count_le_0. unfold_leaves. trace_forall; reflexivity.
  - intros response_data. apply count_le_0.
    unfold decode_and_save_image. unfold_leaves. trace_forall; reflexivity.
Qed.

Lemma decode_and_save_image_one_save w b64_data output_path output_format quality :
  (count is_save
     (trace (decode_and_save_image w b64_data output_path output_format quality)) <= 1)%nat.
Proof.
  unfold decode_and_save_image.
  change 1%nat with (0 + (1 + 0))%nat.
  apply count_bind; [ apply count_le_0; unfold_leaves; trace_forall | intros image ].
  apply count_bind; [ | intros _; apply count_le_0; trace_forall ].
  assert (Hsave : forall c, (count is_save (trace (save w c)) <= 1)%nat).
  { intros c. unfold save. destruct (image_save w c); unfold count; simpl; lia. }
  destruct (is_webp _); [ apply Hsave | ].
  destruct (is_jpeg _); [ | apply Hsave ].
  change 1%nat with (0 + 1)%nat. apply count_bind; [ | intros; apply Hsave ].
  apply count_le_0. unfold_leaves. trace_forall.
Qed.

Lemma generate_image_one_save w prompt output_path size quality output_format :
  (count is_save
     (trace (generate_image w prompt output_path size quality output_format)) <= 1)%nat.
Proof.
  unfold generate_image.
  change 1%nat with (0 + (0 + (0 + (0 + (0 + (0 + (0 + (0 + (0 + (1 + 0))))))))))%nat.
  do 2 (apply count_bind; [ apply count_le_0; trace_forall; reflexivity | intros _ ]).
  apply count_bind; [ apply count_le_0; unfold_leaves; trace_forall; reflexivity
                    | intros response_data ].
  do 6 (apply count_bind; [ apply count_le_0; unfold_leaves; trace_forall; reflexivity
                          | intros ? ]).
  apply count_bind; [ apply decode_and_save_image_one_save | intros saved_path ].
  apply count_le_0. trace_forall; reflexivity.
Qed.

Lemma main_args_count kind w args :
  (forall s m, kind (Print s m) = false) -> kind PrintHelp = false ->
  (forall p, kind (Mkdir p) = false) ->
  (forall prompt output_path,
      (count kind (trace (generate_image w prompt output_path
                            (ns_size args) (ns_quality args) None)) <= 1)%nat) ->
  (count kind (trace (main_args w args)) <= 1)%nat.
Proof.
  intros Hprint Hhelp Hmkdir Hgen.
  assert (Husage : forall m,
             (count kind (trace (print Stderr m ;;; emit PrintHelp ;;; @sys_exit unit 1))
              <= 1)%nat).
  { intros m. unfold count. simpl. rewrite Hprint, Hhelp. simpl. lia. }
  assert (Hmk : forall p, (count kind (trace (mkdir w p)) <= 0)%nat).
  { intros p. unfold mkdir. destruct (path_mkdir w p); unfold count; simpl;
      rewrite Hmkdir; simpl; lia. }
  assert (Hpr : forall s m, (count kind (trace (print s m)) <= 0)%nat).
  { intros s m. unfold count. simpl. rewrite Hprint. simpl. lia. }
  assert (Htry : forall prompt output_path,
             (count kind
                (trace (try_except
                          (generate_image w prompt output_path (ns_size args)
                             (ns_quality args) None ;;; ret tt)
                          is_Exception report_error)) <= 1 + 0 + 0)%nat).
  { intros prompt output_path. apply count_try.
    - apply count_bind; [ apply Hgen | intros; unfold count; simpl; lia ].
    - intros e. unfold count. simpl. rewrite Hprint. simpl. lia. }
  assert (Hcontent : forall t s,
             (count kind (trace (content_type_mode w args t s)) <= 1)%nat).
  { intros t s. unfold content_type_mode.
    destruct (ns_prompt args) as [p |]; [ destruct (Str.truthy p) | ];
      try apply Husage.
    change 1%nat with ((0 + (0 + (0 + (0 + (0 + (0 + 1)))))) + 0 + 0)%nat.
    apply count_try.
    - apply count_bind; [ | intros; unfold count; simpl; lia ].
      unfold generate_content_image.
      apply count_bind; [ apply Hmk | intros _ ].
      do 5 (apply count_bind; [ apply Hpr | intros _ ]).
      apply Hgen.
    - intros e. unfold count. simpl. rewrite Hprint. simpl. lia. }
  assert (Hcustom : (count kind (trace (custom_path_mode w args)) <= 1)%nat).
  { unfold custom_path_mode.
    destruct (ns_prompt args) as [p |], (ns_output args) as [o |];
      try apply Husage.
    destruct (Str.truthy p && Str.truthy o); try apply Husage.
    change 1%nat with (0 + (1 + 0 + 0))%nat.
    apply count_bind; [ apply Hmk | intros _ ]. apply Htry. }
  unfold main_args.
  destruct (ns_type args) as [t |], (ns_slug args) as [s |]; auto.
  destruct (Str.truthy t && Str.truthy s); auto.
Qed.

Lemma script_count kind w items :
  (forall s m, kind (Print s m) = false) -> kind PrintHelp = false ->
  (forall p, kind (Mkdir p) = false) ->
  (forall prompt output_path size quality,
      (count kind (trace (generate_image w prompt output_path size quality None))
       <= 1)%nat) ->
  (count kind (trace (script w items)) <= 1)%nat.
Proof.
  intros Hprint Hhelp Hmkdir Hgen. unfold script, main, parse_args.
  destruct (negb _); [ unfold count; simpl; rewrite Hprint; simpl; lia | ].
  rewrite bind_ret.
  destruct (parse_items parser_positionals items ns_defaults) as [[why |] | args].
  - unfold count. simpl. rewrite Hprint. simpl. lia.
  - unfold count. simpl. rewrite Hhelp. simpl. lia.
  - rewrite bind_ret. apply main_args_count; auto.
Qed.

(** X4: one run posts at most one request and calls [image.save] at most
    once: nothing is retried. *)
Theorem at_most_one_request_and_one_save (w : World) (items : list cli_item) :
  (count is_post (trace (script w items)) <= 1)%nat
  /\ (count is_save (trace (script w items)) <= 1)%nat.
Proof.
  split; apply script_count; try reflexivity; intros.
  - apply generate_image_one_post.
  - apply generate_image_one_save.
Qed.

(** ** Requests that fail *)

(** Closes a goal [fails m] for a run [m] that has been computed. *)
Ltac fails_now :=
  repeat split;
  first [ solve [ repeat constructor; intros ? H; discriminate H ]
        | solve [ repeat constructor ]
        | solve [ intros ? H; discriminate H ] ].

Lemma harmless_request_failed {A} e : fails (@request_failed A e).
Proof.
  unfold request_failed, print.
  destruct e as [msg [r |] | cls msg]; simpl; try destruct (json_body r); simpl;
    fails_now.
Qed.

Lemma generate_image_request_unusable w prompt output_path size quality output_format :
  (forall req, unusable (requests_post w req)) ->
  fails (generate_image w prompt output_path size quality output_format).
Proof.
  intros Hun. unfold generate_image.
  apply fails_bind; [ apply harmless_print | intros _ _ ].
  apply fails_bind; [ apply harmless_print | intros _ _ ].
  match goal with |- fails (bind ?m _) => set (T := m) end.
  assert (HT : fails T).
  { subst T. unfold post, raise_for_status, response_json, request_failed, print.
    specialize (Hun (generation_request w prompt size quality)).
    destruct (requests_post w _) as [e | resp]; cbn [lift].
    - destruct e as [msg r | cls msg]; simpl.
      + destruct r as [r |]; simpl; try destruct (json_body r); simpl;
          fails_now.
      + fails_now.
    - rewrite bind_emit_ret. simpl in Hun.
      destruct ((400 <=? status_code resp) && (status_code resp <? 600)) eqn:Es.
      + simpl. destruct (json_body resp); simpl;
          fails_now.
      + destruct Hun as [Hs | Hj]; [ lia | ]. rewrite Hj. simpl.
        fails_now. }
  destruct HT as [Hh Hr]. apply fails_bind; [ exact Hh | ].
  intros a Ha. destruct (Hr a Ha).
Qed.

(** X5: when the request cannot be used (the HTTP library raises, the
    status is 4xx or 5xx, or the body is not JSON) the script exits with
    status 1 and [image.save] is never called. *)
Theorem unusable_answer_exits_1 (w : World) (items : list cli_item)
    (args : Namespace) :
  parse_items parser_positionals items ns_defaults = inr args ->
  (forall req, unusable (requests_post w req)) ->
  exit_status (script w items) = 1
  /\ forall c, ~ In (Save c) (trace (script w items)).
Proof.
  intros Hparse Hun.
  assert (H : exits_1_unsaved (script w items)).
  { unfold script, main, parse_args. rewrite Hparse, bind_ret.
    destruct (negb _);
      [ split; [ reflexivity | repeat constructor; intros c H; discriminate H ] | ].
    rewrite bind_ret. apply main_args_without_picture.
    intros prompt output_path. apply generate_image_request_unusable, Hun. }
  destruct H as [Hs Ht]. split; [ exact Hs | ].
  intros c Hin. rewrite List.Forall_forall in Ht. exact (Ht _ Hin c eq_refl).
Qed.

Lemma unusable_answer_exits_1_witness :
  exit_status (script world_with_http_error
                 [Positional "a fern"; Positional "out/fern.webp"]) = 1
  /\ forall c, ~ In (Save c)
       (trace (script world_with_http_error
                 [Positional "a fern"; Positional "out/fern.webp"])).
Proof.
  apply (unusable_answer_exits_1 world_with_http_error
           [Positional "a fern"; Positional "out/fern.webp"]
           (mkNamespace (Some "a fern") (Some "out/fern.webp") None None
              "1536x1024" "high")).
  - reflexivity.
  - intros req. left. simpl. lia.
Defined.

(** X6: on an HTTP error status [generate_image] posts once, prints the
    request error and then the body of the answer, decoded if it is JSON and
    as text if it is not, and exits with 1. *)
Theorem http_error_is_reported (w : World)
    (prompt output_path size quality : string) (output_format : option string)
    (resp : http_response) :
  requests_post w (generation_request w prompt size quality) = inr resp ->
  400 <= status_code resp < 600 ->
  generate_image w prompt output_path size quality output_format
  = ([ Print Stdout (MsgGenerating prompt);
       Print Stdout (MsgSizeQuality size quality);
       HttpPost (generation_request w prompt size quality);
       Print Stderr (MsgRequestError (RequestException "HTTPError" (Some resp)));
       Print Stderr (match json_body resp with
                     | Some error_details => MsgErrorDetails error_details
                     | None => MsgResponseText (text resp)
                     end) ],
     Exited 1).
Proof.
  intros Hpost Hstatus.
  unfold generate_image, post, raise_for_status, request_failed, print.
  rewrite Hpost. cbn [lift].
  assert (Es : (400 <=? status_code resp) && (status_code resp <? 600) = true).
  { apply andb_true_intro. split; [ apply Z.leb_le | apply Z.ltb_lt ]; lia. }
  rewrite bind_emit_ret, Es. simpl.
  destruct (json_body resp); reflexivity.
Qed.

Lemma http_error_is_reported_witness :
  generate_image world_with_http_error "a fern" "out/fern.webp" "1536x1024" "high" None
  = ([ Print Stdout (MsgGenerating "a fern");
       Print Stdout (MsgSizeQuality "1536x1024" "high");
       HttpPost (generation_request world_with_http_error "a fern" "1536x1024" "high");
       Print Stderr (MsgRequestError
                       (RequestException "HTTPError" (Some error_response)));
       Print Stderr (MsgResponseText "Too Many Requests") ],
     Exited 1).
Proof.
  apply (http_error_is_reported world_with_http_error "a fern" "out/fern.webp"
           "1536x1024" "high" None error_response).
  - reflexivity.
  - simpl. lia.
Defined.

(** ** Directories that cannot be made *)

(** X7: when the output directory cannot be created the script exits with
    status 1 and posts no request. *)
Theorem mkdir_failure_posts_nothing (w : World) (items : list cli_item)
    (args : Namespace) (e : exn) :
  parse_items parser_positionals items ns_defaults = inr args ->
  (forall p, path_mkdir w p = Some e) ->
  exit_status (script w items) = 1
  /\ forall r, ~ In (HttpPost r) (trace (script w items)).
Proof.
  intros Hparse Hmk.
  assert (H : exit_status (script w items) = 1
              /\ Forall not_a_post (trace (script w items))).
  { unfold script, main, parse_args. rewrite Hparse, bind_ret.
    destruct (negb _);
      [ split; [ reflexivity | repeat constructor; intros r H; discriminate H ] | ].
    rewrite bind_ret.
    unfold main_args, content_type_mode, custom_path_mode, generate_content_image,
      mkdir.
    destruct (ns_type args) as [t |], (ns_slug args) as [s |],
      (ns_prompt args) as [p |], (ns_output args) as [o |];
      repeat match goal with
      | |- context [Str.truthy ?x] => destruct (Str.truthy x); cbn [andb]
      end;
      rewrite ?Hmk; simpl;
      (split; [ reflexivity | repeat constructor; intros r H; discriminate H ]). }
  destruct H as [Hs Ht]. split; [ exact Hs | ].
  intros r Hin. rewrite List.Forall_forall in Ht. exact (Ht _ Hin r eq_refl).
Qed.

Lemma mkdir_failure_posts_nothing_witness :
  exit_status (script world_read_only
                 [Optional "--type" "tips"; Optional "--slug" "fern";
                  Positional "a fern"]) = 1
  /\ forall r, ~ In (HttpPost r)
       (trace (script world_read_only
                 [Optional "--type" "tips"; Optional "--slug" "fern";
                  Positional "a fern"])).
Proof.
  apply (mkdir_failure_posts_nothing world_read_only
           [Optional "--type" "tips"; Optional "--slug" "fern"; Positional "a fern"]
           (mkNamespace (Some "a fern") None (Some "tips") (Some "fern")
              "1536x1024" "high")
           (PyError "PermissionError" "Permission denied")).
  - reflexivity.
  - intros p. reflexivity.
Defined.

(** ** The picture in the answer *)

(** The try block of [generate_image] when the API answers [resp] with the
    JSON body [r]. *)
Lemma request_returns w prompt size quality resp r :
  requests_post w (generation_request w prompt size quality) = inr resp ->
  json_body resp = Some r ->
  (400 <=? status_code resp) && (status_code resp <? 600) = false ->
  try_except
    (response <- post w (generation_request w prompt size quality) ;;
     raise_for_status response ;;; response_json response)
    is_RequestException request_failed
  = ([HttpPost (generation_request w prompt size quality)], Return r).
Proof.
  intros Hpost Hjson Hs. unfold post, raise_for_status, response_json.
  rewrite Hpost. cbn [lift]. rewrite bind_emit_ret, Hs, Hjson. reflexivity.
Qed.

Lemma bind_emit {B} (e : event) (r : json) (k : json -> run B) :
  bind ([e], Return r) k = (emit e ;;; k r).
Proof. unfold bind, emit. simpl. destruct (k r). reflexivity. Qed.

Lemma harmless_emit_post r : harmless (emit (HttpPost r)).
Proof. split; [ exact I | repeat constructor; intros c H; discriminate H ]. Qed.

Lemma rest_without_b64 w r output_path output_format quality :
  b64_json_of r = None ->
  fails
    (has_data <- py_in "data" r ;;
     no_data <-
       (if negb has_data then ret true
        else d <- py_getitem r "data" ;; ret (negb (json_truthy d))) ;;
     (if no_data : bool then print Stderr MsgNoImageData ;;; sys_exit 1 else ret tt) ;;;
     d <- py_getitem r "data" ;;
     first <- py_first d ;;
     b64_img <- py_getitem first "b64_json" ;;
     saved_path <-
       decode_and_save_image w b64_img output_path output_format quality ;;
     print Stdout (MsgSaved saved_path) ;;;
     ret saved_path).
Proof.
  intros Hnone. unfold decode_and_save_image, open_b64.
  unfold py_in, py_getitem, py_first, print, TypeError, KeyError, IndexError.
  destruct r as [| b | n | m e | s | l | kvs]; simpl in Hnone; simpl;
    try (destruct (Str.contains "data" s); simpl);
    try (destruct (existsb (is_str "data") l); simpl);
    try fails_now.
  destruct (assoc "data" kvs) as [d |]; simpl; [ | fails_now ].
  destruct d as [| b | n | m e | s | l | kvs']; simpl;
    try (destruct b; simpl); try (destruct (n =? 0); simpl);
    try (destruct (m =? 0); simpl); try (destruct s; simpl);
    try (destruct kvs'; simpl); try fails_now.
  destruct l as [| first l]; simpl; [ fails_now | ].
  destruct first as [| b | n | m e | s | l' | entry]; simpl; try fails_now.
  destruct (assoc "b64_json" entry) as [v |]; simpl; [ | fails_now ].
  destruct v; simpl; try discriminate Hnone; fails_now.
Qed.

Lemma generate_image_without_b64 w prompt output_path size quality
    output_format resp r :
  (forall req, requests_post w req = inr resp) ->
  json_body resp = Some r ->
  b64_json_of r = None ->
  fails (generate_image w prompt output_path size quality output_format).
Proof.
  intros Hpost Hjson Hnone.
  destruct ((400 <=? status_code resp) && (status_code resp <? 600)) eqn:Es.
  - apply generate_image_request_unusable. intros req. rewrite Hpost. left.
    apply andb_prop in Es as [H1 H2]. apply Z.leb_le in H1. apply Z.ltb_lt in H2. lia.
  - unfold generate_image.
    apply fails_bind; [ apply harmless_print | intros _ _ ].
    apply fails_bind; [ apply harmless_print | intros _ _ ].
    rewrite (request_returns _ _ _ _ resp r) by auto. rewrite bind_emit.
    apply fails_bind; [ apply harmless_emit_post | intros _ _ ].
    apply rest_without_b64. exact Hnone.
Qed.

(** X8: an answer that holds no string at
    [data[0].b64_json] exits with 1 and saves nothing. *)
Theorem answer_without_b64_exits_1 (w : World) (items : list cli_item)
    (args : Namespace) (resp : http_response) (r : json) :
  parse_items parser_positionals items ns_defaults = inr args ->
  (forall req, requests_post w req = inr resp) ->
  json_body resp = Some r ->
  b64_json_of r = None ->
  exit_status (script w items) = 1
  /\ forall c, ~ In (Save c) (trace (script w items)).
Proof.
  intros Hparse Hpost Hjson Hnone.
  assert (H : exits_1_unsaved (script w items)).
  { unfold script, main, parse_args. rewrite Hparse, bind_ret.
    destruct (negb _);
      [ split; [ reflexivity | repeat constructor; intros c H; discriminate H ] | ].
    rewrite bind_ret. apply main_args_without_picture.
    intros prompt output_path. eapply generate_image_without_b64; eauto. }
  destruct H as [Hs Ht]. split; [ exact Hs | ].
  intros c Hin. rewrite List.Forall_forall in Ht. exact (Ht _ Hin c eq_refl).
Qed.

Lemma b64_json_of_some r s :
  b64_json_of r = Some s ->
  exists kvs entry others,
    r = JDict kvs
    /\ assoc "data" kvs = Some (JList (JDict entry :: others))
    /\ assoc "b64_json" entry = Some (JStr s).
Proof.
  destruct r as [| | | | | | kvs]; try discriminate. simpl.
  destruct (assoc "data" kvs) as [[| | | | | [| [| | | | | | entry] others] |] |] eqn:Ed;
    try discriminate.
  destruct (assoc "b64_json" entry) as [[| | | | s' | |] |] eqn:Eb; try discriminate.
  intros [= <-]. eauto 7.
Qed.

Lemma generate_image_with_b64 (w : World)
    (prompt output_path size quality : string) (output_format : option string)
    (resp : http_response) (r : json) (s : string) :
  requests_post w (generation_request w prompt size quality) = inr resp ->
  (400 <=? status_code resp) && (status_code resp <? 600) = false ->
  json_body resp = Some r ->
  b64_json_of r = Some s ->
  generate_image w prompt output_path size quality output_format
  = (print Stdout (MsgGenerating prompt) ;;;
     print Stdout (MsgSizeQuality size quality) ;;;
     emit (HttpPost (generation_request w prompt size quality)) ;;;
     saved_path <-
       decode_and_save_image w (JStr s) output_path
         (Some (target_format output_format output_path))
         (conversion_quality quality) ;;
     print Stdout (MsgSaved saved_path) ;;;
     ret saved_path).
Proof.
  intros Hpost Hs Hjson Hsome.
  destruct (b64_json_of_some _ _ Hsome) as (kvs & entry & others & -> & Hd & Hb).
  unfold generate_image.
  rewrite (request_returns _ _ _ _ resp (JDict kvs)) by assumption.
  rewrite bind_emit. unfold py_in, py_getitem, py_first.
  rewrite Hd. rewrite !bind_ret. cbn [negb json_truthy]. rewrite !bind_ret.
  rewrite Hb. rewrite !bind_ret. reflexivity.
Qed.

(** X9: when the API answers with a picture, [generate_image] posts once and
    then decodes and saves the string at [data[0].b64_json]; nothing else of
    the answer (further entries of "data", other fields) plays a part. *)
Theorem first_picture_is_saved (w : World)
    (prompt output_path size quality : string) (output_format : option string)
    (resp : http_response) (r : json) (s : string) :
  requests_post w (generation_request w prompt size quality) = inr resp ->
  (400 <=? status_code resp) && (status_code resp <? 600) = false ->
  json_body resp = Some r ->
  b64_json_of r = Some s ->
  generate_image w prompt output_path size quality output_format
  = (print Stdout (MsgGenerating prompt) ;;;
     print Stdout (MsgSizeQuality size quality) ;;;
     emit (HttpPost (generation_request w prompt size quality)) ;;;
     saved_path <-
       decode_and_save_image w (JStr s) output_path
         (Some (target_format output_format output_path))
         (conversion_quality quality) ;;
     print Stdout (MsgSaved saved_path) ;;;
     ret saved_path).
Proof. apply generate_image_with_b64. Qed.

Lemma first_picture_is_saved_witness :
  generate_image world_two_pictures "a fern" "fern.png" "1024x1024" "low" None
  = ([ Print Stdout (MsgGenerating "a fern");
       Print Stdout (MsgSizeQuality "1024x1024" "low");
       HttpPost (generation_request world_two_pictures "a fern" "1024x1024" "low");
       Save (PIL.mkSave "fern.png" "PNG" None None sample_rgb);
       Print Stdout (MsgSaved "fern.png") ],
     Return "fern.png").
Proof.
  rewrite (first_picture_is_saved world_two_pictures "a fern" "fern.png"
             "1024x1024" "low" None two_pictures_response
             (JDict [("created", JInt 1762214400);
                     ("data", JList [JDict [("b64_json", JStr "Zmlyc3Q=")];
                                     JDict [("b64_json", JStr "c2Vjb25k")]])])
             "Zmlyc3Q=");
    reflexivity.
Defined.

Lemma answer_without_b64_exits_1_witness :
  exit_status (script world_without_b64
                 [Positional "a fern"; Positional "out/fern.webp"]) = 1
  /\ forall c, ~ In (Save c)
       (trace (script world_without_b64
                 [Positional "a fern"; Positional "out/fern.webp"])).
Proof.
  apply (answer_without_b64_exits_1 world_without_b64
           [Positional "a fern"; Positional "out/fern.webp"]
           (mkNamespace (Some "a fern") (Some "out/fern.webp") None None
              "1536x1024" "high")
           answer_without_b64
           (JDict [("data", JList [JDict [("url", JStr "https://example.org/fern.png")]])]));
    reflexivity.
Defined.

(** ** A run in which everything works *)

Lemma decode_and_save_image_returns w s image output_path output_format quality :
  image_open w s = inr image ->
  rgba_has_alpha image = true ->
  (forall c, image_save w c = None) ->
  exists c,
    decode_and_save_image w (JStr s) output_path output_format quality
    = ([Save c], Return output_path)
    /\ PIL.save_path c = output_path.
Proof.
  intros Hopen Hwf Hsave. unfold decode_and_save_image, open_b64, save.
  rewrite Hopen. cbn [lift]. rewrite bind_ret.
  destruct (is_webp _); [ | destruct (is_jpeg _) ].
  - eexists. rewrite Hsave. split; reflexivity.
  - unfold flatten_rgba, tuple_index, PIL.split.
    unfold rgba_has_alpha in Hwf.
    destruct (String.eqb (PIL.mode image) "RGBA") eqn:Em.
    + apply Nat.ltb_lt in Hwf.
      destruct (nth_error (PIL.bands image) 3) as [alpha |] eqn:Ea;
        [ | apply nth_error_None in Ea; lia ].
      eexists. rewrite !bind_ret, Hsave. split; reflexivity.
    + eexists. rewrite !bind_ret, Hsave. split; reflexivity.
  - eexists. rewrite Hsave. split; reflexivity.
Qed.

Lemma generate_image_returns w prompt output_path size quality output_format
    resp r s image :
  requests_post w (generation_request w prompt size quality) = inr resp ->
  (400 <=? status_code resp) && (status_code resp <? 600) = false ->
  json_body resp = Some r ->
  b64_json_of r = Some s ->
  image_open w s = inr image ->
  rgba_has_alpha image = true ->
  (forall c, image_save w c = None) ->
  exists t,
    generate_image w prompt output_path size quality output_format
    = (t, Return output_path)
    /\ In (Print Stdout (MsgSaved output_path)) t.
Proof.
  intros Hpost Hs Hjson Hsome Hopen Hwf Hsave.
  rewrite (generate_image_with_b64 _ _ _ _ _ _ resp r s) by assumption.
  destruct (decode_and_save_image_returns w s image output_path
              (Some (target_format output_format output_path))
              (conversion_quality quality) Hopen Hwf Hsave) as (c & -> & _).
  eexists. split; [ reflexivity | ]. simpl. tauto.
Qed.

(** ** The quality of a WEBP or JPEG save *)

Lemma in_trace_bind_l {A B} (e : event) (m : run A) (k : A -> run B) :
  In e (trace m) -> In e (trace (bind m k)).
Proof.
  destruct m as [t [a | e' | c]]; unfold trace; simpl; auto.
  destruct (k a) as [t' r]. simpl. intros H. apply in_or_app. left. exact H.
Qed.

Lemma in_trace_after {A B} (e : event) (t : list event) (a : A) (k : A -> run B) :
  In e (trace (k a)) -> In e (trace (bind (t, Return a) k)).
Proof.
  unfold trace, bind. destruct (k a) as [t' r]. simpl. intros H.
  apply in_or_app. right. exact H.
Qed.

Lemma save_is_traced w c : In (Save c) (trace (save w c)).
Proof. unfold save. destruct (image_save w c); simpl; left; reflexivity. Qed.

(** The save of the WEBP branch and the save of the JPEG branch take place
    once the picture has been opened. *)
Lemma decode_and_save_image_webp w s image output_path output_format quality :
  image_open w s = inr image ->
  is_webp (target_format output_format output_path) = true ->
  In (Save (PIL.mkSave output_path "WEBP" (Some quality) (Some 6) image))
    (trace (decode_and_save_image w (JStr s) output_path output_format quality)).
Proof.
  intros Hopen Hw. unfold decode_and_save_image, open_b64.
  rewrite Hopen. cbn [lift]. rewrite bind_ret, Hw.
  apply in_trace_bind_l, save_is_traced.
Qed.

Lemma decode_and_save_image_jpeg w s image output_path output_format quality :
  image_open w s = inr image ->
  is_jpeg (target_format output_format output_path) = true ->
  rgba_has_alpha image = true ->
  exists flat,
    flatten_rgba image = ret flat
    /\ In (Save (PIL.mkSave output_path "JPEG" (Some quality) None flat))
         (trace (decode_and_save_image w (JStr s) output_path output_format
                   quality)).
Proof.
  intros Hopen Hj Hwf. unfold decode_and_save_image, open_b64.
  rewrite Hopen. cbn [lift]. rewrite bind_ret, (jpeg_is_not_webp _ Hj), Hj.
  assert (Hflat : exists flat, flatten_rgba image = ret flat).
  { unfold flatten_rgba, tuple_index, PIL.split. unfold rgba_has_alpha in Hwf.
    destruct (String.eqb (PIL.mode image) "RGBA"); [ | eauto ].
    apply Nat.ltb_lt in Hwf.
    destruct (nth_error (PIL.bands image) 3) as [alpha |] eqn:Ea;
      [ rewrite bind_ret; eauto | apply nth_error_None in Ea; lia ]. }
  destruct Hflat as [flat Hflat]. exists flat. split; [ exact Hflat | ].
  rewrite Hflat, bind_ret. apply in_trace_bind_l, save_is_traced.
Qed.

(** C1: the quality string is lowercased and looked up: low gives 70,
    medium 85, high and auto 95.  Every WEBP or JPEG save of
    [generate_image] gets that number as its [quality]; and when the answer
    holds a picture that opens, the save of the WEBP branch and the save of
    the JPEG branch take place, with that number. *)
Theorem encoder_quality_of_quality_level (quality : string) :
  (Str.lower quality = "low" -> conversion_quality quality = 70)
  /\ (Str.lower quality = "medium" -> conversion_quality quality = 85)
  /\ (Str.lower quality = "high" -> conversion_quality quality = 95)
  /\ (Str.lower quality = "auto" -> conversion_quality quality = 95)
  /\ (forall w prompt output_path size output_format c,
        In (Save c)
          (trace (generate_image w prompt output_path size quality output_format)) ->
        PIL.save_format c = "WEBP" \/ PIL.save_format c = "JPEG" ->
        PIL.save_quality c = Some (conversion_quality quality))
  /\ (forall w prompt output_path size output_format resp r s image,
        requests_post w (generation_request w prompt size quality) = inr resp ->
        (400 <=? status_code resp) && (status_code resp <? 600) = false ->
        json_body resp = Some r ->
        b64_json_of r = Some s ->
        image_open w s = inr image ->
        (is_webp (target_format output_format output_path) = true ->
         In (Save (PIL.mkSave output_path "WEBP"
                     (Some (conversion_quality quality)) (Some 6) image))
           (trace (generate_image w prompt output_path size quality
                     output_format)))
        /\ (is_jpeg (target_format output_format output_path) = true ->
            rgba_has_alpha image = true ->
            exists flat,
              flatten_rgba image = ret flat
              /\ In (Save (PIL.mkSave output_path "JPEG"
                             (Some (conversion_quality quality)) None flat))
                   (trace (generate_image w prompt output_path size quality
                             output_format)))).
Proof.
  split; [ intros H; rewrite (conversion_quality_of_lower _ _ H); reflexivity | ].
  split; [ intros H; rewrite (conversion_quality_of_lower _ _ H); reflexivity | ].
  split; [ intros H; rewrite (conversion_quality_of_lower _ _ H); reflexivity | ].
  split; [ intros H; rewrite (conversion_quality_of_lower _ _ H); reflexivity | ].
  split.
  - intros w prompt output_path size output_format c Hin Hfmt.
    pose proof (generate_image_saves w prompt output_path size quality output_format) as H.
    rewrite List.Forall_forall in H. destruct (H _ Hin c eq_refl) as [_ Hrule].
    unfold save_rule in Hrule.
    destruct (is_webp _) eqn:Ew; [ tauto | ].
    destruct (is_jpeg _) eqn:Ej; [ tauto | ].
    destruct Hrule as [Hf _]. rewrite Hf in Hfmt.
    apply upper_is_encoder in Hfmt. rewrite Ew, Ej in Hfmt.
    destruct Hfmt; discriminate.
  - intros w prompt output_path size output_format resp r s image
      Hpost Hs Hjson Hsome Hopen.
    rewrite (generate_image_with_b64 _ _ _ _ _ _ resp r s) by assumption.
    split.
    + intros Hw.
      apply (in_trace_after _ [Print Stdout (MsgGenerating prompt)] tt).
      apply (in_trace_after _ [Print Stdout (MsgSizeQuality size quality)] tt).
      apply (in_trace_after _ [HttpPost (generation_request w prompt size quality)] tt).
      apply in_trace_bind_l.
      apply (decode_and_save_image_webp w s image output_path
               (Some (target_format output_format output_path))); assumption.
    + intros Hj Hwf.
      destruct (decode_and_save_image_jpeg w s image output_path
                  (Some (target_format output_format output_path))
                  (conversion_quality quality) Hopen Hj Hwf) as (flat & Hflat & Hin).
      exists flat. split; [ exact Hflat | ].
      apply (in_trace_after _ [Print Stdout (MsgGenerating prompt)] tt).
      apply (in_trace_after _ [Print Stdout (MsgSizeQuality size quality)] tt).
      apply (in_trace_after _ [HttpPost (generation_request w prompt size quality)] tt).
      apply in_trace_bind_l. exact Hin.
Qed.

Lemma encoder_quality_of_quality_level_witness :
  conversion_quality "Low" = 70
  /\ In (Save (PIL.mkSave "fern.webp" "WEBP" (Some 70) (Some 6) sample_rgb))
       (trace (generate_image (sample_world sample_rgb) "a fern" "fern.webp"
                 "1024x1024" "Low" None))
  /\ exists flat,
       flatten_rgba sample_rgba = ret flat
       /\ In (Save (PIL.mkSave "fern.jpg" "JPEG" (Some 70) None flat))
            (trace (generate_image (sample_world sample_rgba) "a fern" "fern.jpg"
                      "1024x1024" "Low" None)).
Proof.
  pose proof (encoder_quality_of_quality_level "Low")
    as (Hlow & _ & _ & _ & _ & Hsave).
  split; [ apply Hlow; reflexivity | ]. split.
  - apply (proj1 (Hsave (sample_world sample_rgb) "a fern" "fern.webp" "1024x1024"
                    None ok_response
                    (JDict [("data", JList [JDict [("b64_json", JStr "aGVybw==")]])])
                    "aGVybw==" sample_rgb eq_refl eq_refl eq_refl eq_refl eq_refl)).
    reflexivity.
  - apply (proj2 (Hsave (sample_world sample_rgba) "a fern" "fern.jpg" "1024x1024"
                    None ok_response
                    (JDict [("data", JList [JDict [("b64_json", JStr "aGVybw==")]])])
                    "aGVybw==" sample_rgba eq_refl eq_refl eq_refl eq_refl eq_refl));
      reflexivity.
Defined.

Lemma try_returns {A} (t : list event) (a : A) catches handler :
  try_except ((t, Return a) ;;; ret tt) catches handler = (t, Return tt).
Proof. unfold try_except, bind, ret. simpl. rewrite app_nil_r. reflexivity. Qed.

(** X10: with the key set, a prompt, a place to write to, directories that
    can be made, an answer that holds a picture which opens and a save that
    does not raise, the script reports the path it saved to and ends with
    status 0. *)
Theorem all_well_exits_0 (w : World) (items : list cli_item) (args : Namespace)
    (prompt : string) (resp : http_response) (r : json) (s : string)
    (image : PIL.Image) :
  parse_items parser_positionals items ns_defaults = inr args ->
  Str.truthy_opt (subscription_key w) = true ->
  ns_prompt args = Some prompt ->
  Str.truthy prompt = true ->
  has_target args = true ->
  (forall p, path_mkdir w p = None) ->
  (forall req, requests_post w req = inr resp) ->
  (400 <=? status_code resp) && (status_code resp <? 600) = false ->
  json_body resp = Some r ->
  b64_json_of r = Some s ->
  image_open w s = inr image ->
  rgba_has_alpha image = true ->
  (forall c, image_save w c = None) ->
  exit_status (script w items) = 0
  /\ exists path,
       output_path_of w args = Some path
       /\ In (Print Stdout (MsgSaved path)) (trace (script w items)).
Proof.
  intros Hparse Hkey Hp Htp Htarget Hmk Hpost Hs Hjson Hsome Hopen Hwf Hsave.
  assert (Hgen : forall output_path, exists t,
             generate_image w prompt output_path (ns_size args) (ns_quality args) None
             = (t, Return output_path)
             /\ In (Print Stdout (MsgSaved output_path)) t).
  { intros output_path. eapply generate_image_returns; eauto. }
  unfold script, main, parse_args. rewrite Hparse, Hkey. cbn [negb].
  rewrite !bind_ret.
  unfold has_target in Htarget. unfold main_args, output_path_of.
  assert (Hcustom : Str.truthy_opt (ns_output args) = true ->
            exit_status (custom_path_mode w args) = 0
            /\ exists path,
                 option_map (fun o => Pathlib.str (Pathlib.of_string o)) (ns_output args)
                 = Some path
                 /\ In (Print Stdout (MsgSaved path)) (trace (custom_path_mode w args))).
  { intros Ho. unfold custom_path_mode. rewrite Hp.
    destruct (ns_output args) as [o |]; [ | discriminate Ho ]. simpl in Ho.
    rewrite Htp, Ho. cbn [andb]. unfold mkdir. rewrite Hmk.
    destruct (Hgen (Pathlib.str (Pathlib.of_string o))) as (t & -> & Hin).
    rewrite try_returns. split; [ reflexivity | ].
    eexists. split; [ reflexivity | ]. simpl. right. exact Hin. }
  destruct (ns_type args) as [ty |] eqn:Et, (ns_slug args) as [sl |] eqn:Esl;
    simpl in Htarget; try (apply Hcustom; assumption).
  - destruct (Str.truthy ty && Str.truthy sl) eqn:Eb;
      [ | apply Hcustom; simpl in Htarget; exact Htarget ].
    unfold content_type_mode, generate_content_image, mkdir, print.
    rewrite Hp, Htp, Hmk.
    destruct (Hgen (Pathlib.str (content_output_path w ty sl))) as (t & Hg & Hin).
    unfold content_output_path in Hg. rewrite Hg. 
    split; [ reflexivity | ].
    eexists. split; [ reflexivity | ]. simpl. do 6 right.
    rewrite app_nil_r. exact Hin.
  - apply Hcustom. destruct (Str.truthy ty); exact Htarget.
Qed.

Lemma all_well_exits_0_witness :
  exit_status (script (sample_world sample_rgba)
                 [Positional "a fern"; Positional "out/fern.jpg";
                  Optional "--quality" "medium"]) = 0
  /\ exists path,
       output_path_of (sample_world sample_rgba)
         (mkNamespace (Some "a fern") (Some "out/fern.jpg") None None
            "1536x1024" "medium") = Some path
       /\ In (Print Stdout (MsgSaved path))
            (trace (script (sample_world sample_rgba)
                      [Positional "a fern"; Positional "out/fern.jpg";
                       Optional "--quality" "medium"])).
Proof.
  apply (all_well_exits_0 (sample_world sample_rgba)
           [Positional "a fern"; Positional "out/fern.jpg";
            Optional "--quality" "medium"]
           (mkNamespace (Some "a fern") (Some "out/fern.jpg") None None
              "1536x1024" "medium")
           "a fern" ok_response
           (JDict [("data", JList [JDict [("b64_json", JStr "aGVybw==")]])])
           "aGVybw==" sample_rgba); reflexivity.
Defined.

(** ** Content images are WEBP *)

Lemma rfind_dot_webp s : Str.rfind "." (s +:+ ".webp") = Some (String.length s).
Proof.
  induction s as [| c s IH]; [ reflexivity | ].
  simpl. rewrite IH. reflexivity.
Qed.

Lemma drop_length s t : Str.drop (String.length s) (s +:+ t) = t.
Proof. induction s as [| c s IH]; [ destruct t; reflexivity | exact IH ]. Qed.

Lemma has_char_append c s t :
  has_char c (s +:+ t) = has_char c s || has_char c t.
Proof.
  induction s as [| a s IH]; [ reflexivity | ].
  simpl. rewrite IH, orb_assoc. reflexivity.
Qed.

Lemma no_sep_relative s : has_char "/" s = false -> Str.startswith "/" s = false.
Proof.
  destruct s as [| c s]; [ reflexivity | ]. cbn [has_char Str.startswith].
  intros H. apply orb_false_elim in H as [Hc _].
  rewrite Ascii.eqb_sym, Hc. reflexivity.
Qed.

Lemma webp_name_ok s :
  Str.truthy s = true -> has_char "/" s = false -> part_ok (s +:+ ".webp").
Proof.
  intros Hs Hc. split.
  - destruct s as [| c s]; [ discriminate Hs | ]. unfold Pathlib.keep_part.
    simpl. destruct (Ascii.eqb c "."); [ | reflexivity ].
    destruct s; reflexivity.
  - rewrite has_char_append, Hc. reflexivity.
Qed.

Lemma suffix_webp s :
  Str.truthy s = true ->
  forall p, Pathlib.name p = s +:+ ".webp" -> Pathlib.suffix p = ".webp".
Proof.
  intros Hs p Hn. unfold Pathlib.suffix. rewrite Hn, rfind_dot_webp.
  rewrite length_append. simpl (String.length ".webp").
  assert (H0 : (0 <? String.length s)%nat = true).
  { destruct s; [ discriminate Hs | reflexivity ]. }
  assert (H1 : (String.length s <? String.length s + 5 - 1)%nat = true).
  { apply Nat.ltb_lt. lia. }
  rewrite H0, H1. apply drop_length.
Qed.

Lemma project_root_wf w : wf_path (project_root w).
Proof. unfold project_root. apply parent_wf, parent_wf, of_string_wf. Qed.

Lemma content_output_dir_wf w t : wf_path (content_output_dir w t).
Proof.
  unfold content_output_dir. repeat apply joinpath_wf. apply project_root_wf.
Qed.

Lemma content_output_path_simple w t s :
  Str.truthy s = true -> has_char "/" s = false ->
  content_output_path w t s
  = Pathlib.mkPath (Pathlib.root (content_output_dir w t))
      (Pathlib.parts (content_output_dir w t) ++ [s +:+ ".webp"]).
Proof.
  intros Hs Hc. pose proof (webp_name_ok s Hs Hc) as [Hk Hn].
  unfold content_output_path, Pathlib.joinpath.
  assert (E : Pathlib.of_string (s +:+ ".webp") = Pathlib.mkPath "" [s +:+ ".webp"]).
  { rewrite of_string_relative.
    - rewrite (split_one _ _ Hn). simpl. rewrite Hk. reflexivity.
    - apply relative_append; [ exact Hs | apply no_sep_relative, Hc ]. }
  rewrite E. reflexivity.
Qed.

Lemma content_format_is_webp w t s :
  Str.truthy s = true -> has_char "/" s = false ->
  format_of_path (Pathlib.str (content_output_path w t s)) = "webp".
Proof.
  intros Hs Hc. unfold format_of_path.
  assert (Hwf : wf_path (content_output_path w t s)).
  { apply joinpath_wf, content_output_dir_wf. }
  rewrite (of_string_str _ Hwf).
  rewrite (suffix_webp s Hs); [ reflexivity | ].
  rewrite (content_output_path_simple w t s Hs Hc). unfold Pathlib.name. simpl.
  apply last_last.
Qed.

(** X11: in content-type mode with a slug that is one path segment, every
    picture is saved as WEBP, with the quality of the quality level and
    method 6, to a file named [{slug}.webp]. *)
Theorem content_image_is_webp (w : World) (items : list cli_item)
    (args : Namespace) (t s : string) :
  parse_items parser_positionals items ns_defaults = inr args ->
  ns_type args = Some t ->
  ns_slug args = Some s ->
  Str.truthy s = true ->
  has_char "/" s = false ->
  forall c, In (Save c) (trace (script w items)) ->
    PIL.save_format c = "WEBP"
    /\ PIL.save_quality c = Some (conversion_quality (ns_quality args))
    /\ PIL.save_method c = Some 6
    /\ Pathlib.name (Pathlib.of_string (PIL.save_path c)) = s +:+ ".webp".
Proof.
  intros Hparse Ht Hs Hst Hc c Hin.
  pose proof (in_choices_truthy _ (parsed_type_in_choices _ _ _ Hparse Ht)) as Htt.
  set (path := Pathlib.str (content_output_path w t s)).
  assert (H : Forall (saves_as path "webp" (conversion_quality (ns_quality args)))
                (trace (script w items))).
  { apply script_events; try (intros; intros c' Hc'; discriminate Hc').
    intros args' prompt output_path Hparse' Hpath.
    assert (args' = args) by congruence. subst args'.
    unfold output_path_of in Hpath. rewrite Ht, Hs, Htt, Hst in Hpath.
    simpl in Hpath. injection Hpath as <-.
    pose proof (generate_image_saves w prompt path (ns_size args) (ns_quality args) None)
      as Hg.
    unfold target_format in Hg. subst path.
    rewrite (content_format_is_webp w t s Hst Hc) in Hg. exact Hg. }
  rewrite List.Forall_forall in H. destruct (H _ Hin c eq_refl) as [Hpath Hrule].
  unfold save_rule in Hrule. change (is_webp "webp") with true in Hrule.
  destruct Hrule as (Hf & Hq & Hm). repeat split; try assumption.
  rewrite Hpath. subst path. rewrite of_string_str.
  - rewrite (content_output_path_simple w t s Hst Hc). unfold Pathlib.name. simpl.
    apply last_last.
  - apply joinpath_wf, content_output_dir_wf.
Qed.

Lemma content_image_is_webp_witness :
  PIL.save_format (PIL.mkSave "public/images/webp/news/plant-science.webp" "WEBP"
                     (Some 70) (Some 6) sample_rgba) = "WEBP".
Proof.
  refine (proj1 (content_image_is_webp (sample_world sample_rgba)
            [Optional "--type" "news"; Optional "--slug" "plant-science";
             Optional "--quality" "low"; Positional "a fern"]
            (mkNamespace (Some "a fern") None (Some "news") (Some "plant-science")
               "1536x1024" "low")
            "news" "plant-science" _ _ _ _ _ _ _)); try reflexivity.
  vm_compute. do 9 right. left. reflexivity.
Defined.

(** ** What a request carries *)

Lemma main_args_events_prompt (P : event -> Prop) w args :
  (forall s m, P (Print s m)) -> P PrintHelp -> (forall p, P (Mkdir p)) ->
  (forall prompt output_path,
      ns_prompt args = Some prompt -> Str.truthy prompt = true ->
      Forall P (trace (generate_image w prompt output_path
                         (ns_size args) (ns_quality args) None))) ->
  Forall P (trace (main_args w args)).
Proof.
  intros Hprint Hhelp Hmkdir Hgen. unfold_main.
  destruct (ns_type args) as [t|], (ns_slug args) as [s|],
    (ns_prompt args) as [p|], (ns_output args) as [o|];
    repeat match goal with
    | |- context [Str.truthy ?x] =>
        destruct (Str.truthy x) eqn:?; cbn [andb] in *
    end;
    trace_forall_with ltac:(first [ apply Hprint | apply Hhelp | apply Hmkdir
                                  | apply Hgen; [ reflexivity | assumption ] ]).
Qed.

(** X12: every request of a run goes to the generation URL with a timeout
    of 180, carries the non-empty key of the environment in its Api-Key
    header, and has the non-empty prompt of the command line in its body. *)
Theorem request_carries_key_and_prompt (w : World) (items : list cli_item)
    (args : Namespace) (r : request) :
  parse_items parser_positionals items ns_defaults = inr args ->
  In (HttpPost r) (trace (script w items)) ->
  (exists key,
      environ w !! "AZURE_OPENAI_API_KEY" = Some key /\ Str.truthy key = true
      /\ headers r = [("Api-Key", Some key);
                      ("Content-Type", Some "application/json")])
  /\ (exists prompt,
        ns_prompt args = Some prompt /\ Str.truthy prompt = true
        /\ assoc "prompt" (body r) = Some (JStr prompt))
  /\ url r = generation_url w
  /\ timeout r = 180.
Proof.
  intros Hparse Hin.
  assert (Hkey : exists key, environ w !! "AZURE_OPENAI_API_KEY" = Some key
                             /\ Str.truthy key = true).
  { unfold script, subscription_key, getenv in Hin.
    destruct (environ w !! "AZURE_OPENAI_API_KEY") as [key |] eqn:Ek.
    - exists key. split; [ reflexivity | ]. simpl in Hin.
      destruct (Str.truthy key); [ reflexivity | ].
      simpl in Hin. destruct Hin as [H | []]. discriminate H.
    - simpl in Hin. destruct Hin as [H | []]. discriminate H. }
  assert (H : Forall (carries w args) (trace (script w items))).
  { unfold script, main, parse_args. rewrite Hparse, bind_ret.
    destruct (negb _); [ repeat constructor; intros r' Hr'; discriminate Hr' | ].
    rewrite bind_ret.
    apply main_args_events_prompt; try (intros; intros r' Hr'; discriminate Hr').
    intros prompt output_path Hp Htp.
    eapply Forall_impl; [ apply generate_image_posts | ].
    intros e He r' Hr'. exists prompt. auto. }
  rewrite List.Forall_forall in H.
  destruct (H _ Hin r eq_refl) as (prompt & Hp & Htp & ->).
  destruct Hkey as (key & Ek & Htk).
  split; [ exists key; repeat split; try assumption | ].
  - unfold generation_request, subscription_key, getenv. simpl. rewrite Ek. reflexivity.
  - split; [ exists prompt; repeat split; assumption | split; reflexivity ].
Qed.

Lemma request_carries_key_and_prompt_witness :
  url (generation_request (sample_world sample_rgb) "a fern" "1536x1024" "high")
  = generation_url (sample_world sample_rgb).
Proof.
  refine (proj1 (proj2 (proj2 (request_carries_key_and_prompt
            (sample_world sample_rgb)
            [Positional "a fern"; Positional "out/fern.png"]
            (mkNamespace (Some "a fern") (Some "out/fern.png") None None
               "1536x1024" "high")
            (generation_request (sample_world sample_rgb) "a fern" "1536x1024" "high")
            _ _)))).
  - reflexivity.
  - vm_compute. do 3 right. left. reflexivity.
Defined.

(** ** Values the parser rejects *)

Lemma after_extras_bad_choice flag a v pre post :
  find_option flag = Some a ->
  check_value a v = false ->
  has_help pre = false ->
  exists why, after_extras (pre ++ Optional flag v :: post) = UsageError why.
Proof.
  intros Ha Hv. induction pre as [| [u | f u |] pre IH]; intros Hno; simpl in *.
  - rewrite Ha, Hv. eauto.
  - apply IH. exact Hno.
  - destruct (find_option f) as [b |]; [ | apply IH; exact Hno ].
    destruct (check_value b u); [ apply IH; exact Hno | eauto ].
  - discriminate Hno.
Qed.

Lemma parse_items_bad_choice flag a v pre post :
  find_option flag = Some a ->
  check_value a v = false ->
  has_help pre = false ->
  forall ps ns,
    exists why,
      parse_items ps (pre ++ Optional flag v :: post) ns = inl (UsageError why).
Proof.
  intros Ha Hv. induction pre as [| [u | f u |] pre IH]; intros Hno ps ns;
    simpl in *.
  - rewrite Ha, Hv. eauto.
  - destruct ps as [| b ps].
    + destruct (after_extras_bad_choice flag a v pre post Ha Hv Hno) as [why ->].
      eauto.
    + destruct (check_value b u); [ apply IH; exact Hno | eauto ].
  - destruct (find_option f) as [b |].
    + destruct (check_value b u); [ apply IH; exact Hno | eauto ].
    + destruct (after_extras_bad_choice flag a v pre post Ha Hv Hno) as [why ->].
      eauto.
  - discriminate Hno.
Qed.

(** X13: a [--type] outside tips, guides, news or a [--quality] outside
    low, medium, high, auto, with no help flag before it, makes the parser
    reject the command line: with the key set the script exits with status
    2, having printed the parser's error and done nothing else. *)
Theorem value_outside_choices_exits_2 (w : World) (pre post : list cli_item)
    (flag v : string) :
  Str.truthy_opt (subscription_key w) = true ->
  has_help pre = false ->
  (flag = "--type" /\ existsb (String.eqb v) type_choices = false)
  \/ (flag = "--quality" /\ existsb (String.eqb v) quality_choices = false) ->
  exit_status (script w (pre ++ Optional flag v :: post)) = 2
  /\ exists why,
       trace (script w (pre ++ Optional flag v :: post))
       = [Print Stderr (MsgUsage why)].
Proof.
  intros Hkey Hno Hbad.
  assert (H : exists why,
             parse_items parser_positionals (pre ++ Optional flag v :: post) ns_defaults
             = inl (UsageError why)).
  { destruct Hbad as [[-> Hv] | [-> Hv]].
    - apply (parse_items_bad_choice "--type" arg_type); auto.
    - apply (parse_items_bad_choice "--quality" arg_quality); auto. }
  destruct H as [why Hparse].
  unfold script, main, parse_args. rewrite Hparse, Hkey.
  split; [ reflexivity | exists why; reflexivity ].
Qed.

Lemma value_outside_choices_exits_2_witness :
  exit_status (script (sample_world sample_rgb)
                 [Positional "your prompt"; Positional "output.png";
                  Optional "--size" "1024x1024"; Optional "--quality" "standard";
                  HelpFlag]) = 2
  /\ exists why,
       trace (script (sample_world sample_rgb)
                [Positional "your prompt"; Positional "output.png";
                 Optional "--size" "1024x1024"; Optional "--quality" "standard";
                 HelpFlag])
       = [Print Stderr (MsgUsage why)].
Proof.
  apply (value_outside_choices_exits_2 (sample_world sample_rgb)
           [Positional "your prompt"; Positional "output.png";
            Optional "--size" "1024x1024"]
           [HelpFlag] "--quality" "standard").
  - reflexivity.
  - reflexivity.
  - right. split; reflexivity.
Defined.

(** ** The quality of the encoder *)

(** X16: a quality string that is neither low nor medium, in any case of
    letters, gives the encoder quality 95, known or not; the encoder
    quality is always one of 70, 85 and 95. *)
Theorem conversion_quality_default (quality : string) :
  (String.eqb (Str.lower quality) "low" = false ->
   String.eqb (Str.lower quality) "medium" = false ->
   conversion_quality quality = 95)
  /\ (conversion_quality quality = 70 \/ conversion_quality quality = 85
      \/ conversion_quality quality = 95).
Proof.
  unfold conversion_quality, quality_map.
  destruct (decide (Str.lower quality = "low")) as [-> | Hl];
    [ split; [ discriminate | left; reflexivity ] | ].
  destruct (decide (Str.lower quality = "medium")) as [-> | Hm];
    [ split; [ discriminate | right; left; reflexivity ] | ].
  assert (E : default 95
                (<["low" := 70]> (<["medium" := 85]> (<["high" := 95]>
                   (<["auto" := 95]> (∅ : gmap string Z)))) !! Str.lower quality) = 95).
  { rewrite lookup_insert_ne by congruence.
    rewrite lookup_insert_ne by congruence.
    destruct (decide (Str.lower quality = "high")) as [-> | Hh]; [ reflexivity | ].
    rewrite lookup_insert_ne by congruence.
    destruct (decide (Str.lower quality = "auto")) as [-> | Ha]; [ reflexivity | ].
    rewrite lookup_insert_ne by congruence. reflexivity. }
  rewrite E. split; [ reflexivity | right; right; reflexivity ].
Qed.

Lemma conversion_quality_default_witness : conversion_quality "Standard" = 95.
Proof.
  apply (proj1 (conversion_quality_default "Standard")); reflexivity.
Defined.

(** ** The flattened picture *)

Lemma paste_band_nth mask out inp i m o x :
  nth_error mask i = Some m -> nth_error out i = Some o ->
  nth_error inp i = Some x ->
  nth_error (PIL.paste_band mask out inp) i = Some (PIL.blend8 m o x).
Proof.
  revert mask out inp. induction i as [| i IH]; intros [| m' mask] [| o' out] [| x' inp];
    simpl; try discriminate.
  - intros [= ->] [= ->] [= ->]. reflexivity.
  - apply IH.
Qed.

Lemma paste_bands_nth mask out inp k o b :
  nth_error out k = Some o -> nth_error inp k = Some b ->
  nth_error (PIL.paste_bands mask out inp) k = Some (PIL.paste_band mask o b).
Proof.
  revert out inp. induction k as [| k IH]; intros [| o' out] [| b' inp];
    simpl; try discriminate.
  - intros [= ->] [= ->]. reflexivity.
  - apply IH.
Qed.

Lemma nth_error_repeat_lt {A} (a : A) n i :
  (i < n)%nat -> nth_error (repeat a n) i = Some a.
Proof.
  revert i. induction n as [| n IH]; intros [| i] H; simpl; try lia; auto.
  apply IH. lia.
Qed.

(** X14: flattening an RGBA picture gives an RGB picture of the same size
    in which a pixel whose alpha is 255 keeps its three samples and a pixel
    whose alpha is 0 is white. *)
Theorem flatten_rgba_pixels (image : PIL.Image) (alpha : list Z) :
  PIL.mode image = "RGBA" ->
  nth_error (PIL.bands image) 3 = Some alpha ->
  exists flat,
    flatten_rgba image = ret flat
    /\ PIL.mode flat = "RGB"
    /\ PIL.size flat = PIL.size image
    /\ forall k i x m,
         (k < 3)%nat ->
         (i < fst (PIL.size image) * snd (PIL.size image))%nat ->
         sample image k i = Some x ->
         nth_error alpha i = Some m ->
         (m = 255 -> 0 <= x <= 255 -> sample flat k i = Some x)
         /\ (m = 0 -> sample flat k i = Some 255).
Proof.
  intros Hmode Halpha. unfold flatten_rgba, tuple_index, PIL.split.
  rewrite Hmode, Halpha. cbn [String.eqb Ascii.eqb Bool.eqb].
  eexists. split; [ reflexivity | ]. split; [ reflexivity | ]. split; [ reflexivity | ].
  intros k i x m Hk Hi Hx Hm. unfold sample in *.
  destruct (nth_error (PIL.bands image) k) as [band |] eqn:Eb; [ | discriminate Hx ].
  set (n := (fst (PIL.size image) * snd (PIL.size image))%nat) in *.
  assert (Hw : nth_error (PIL.bands (PIL.new "RGB" (PIL.size image) [255; 255; 255])) k
               = Some (repeat 255 n)).
  { destruct k as [| [| [| k]]]; try lia; reflexivity. }
  unfold PIL.paste. cbn [PIL.bands] in *.
  rewrite (paste_bands_nth _ _ _ _ _ _ Hw Eb).
  rewrite (paste_band_nth _ _ _ _ m 255 x Hm (nth_error_repeat_lt _ _ _ Hi) Hx).
  split.
  - intros -> Hrange. rewrite blend8_opaque by assumption. reflexivity.
  - intros ->. rewrite blend8_transparent. reflexivity.
Qed.

Lemma flatten_rgba_pixels_witness :
  exists flat,
    flatten_rgba sample_rgba = ret flat
    /\ PIL.mode flat = "RGB"
    /\ PIL.size flat = PIL.size sample_rgba
    /\ forall k i x m,
         (k < 3)%nat ->
         (i < fst (PIL.size sample_rgba) * snd (PIL.size sample_rgba))%nat ->
         sample sample_rgba k i = Some x ->
         nth_error [255; 0] i = Some m ->
         (m = 255 -> 0 <= x <= 255 -> sample flat k i = Some x)
         /\ (m = 0 -> sample flat k i = Some 255).
Proof.
  apply (flatten_rgba_pixels sample_rgba [255; 0]); reflexivity.
Defined.

(** ** The directory of a custom path *)

(** X15: in custom-path mode the first thing the script does is to create
    the parent directory of the path it later saves to. *)
Theorem custom_path_parent_is_created (w : World) (items : list cli_item)
    (args : Namespace) (c : PIL.save_call) :
  parse_items parser_positionals items ns_defaults = inr args ->
  has_option "--type" items = false \/ has_option "--slug" items = false ->
  In (Save c) (trace (script w items)) ->
  exists rest,
    trace (script w items)
    = Mkdir (Pathlib.parent (Pathlib.of_string (PIL.save_path c))) :: rest
    /\ In (Save c) rest.
Proof.
  intros Hparse Hone Hin.
  assert (Hcustom : main_args w args = custom_path_mode w args).
  { unfold main_args. destruct Hone as [H | H].
    - rewrite (parse_items_no_type _ _ Hparse H). reflexivity.
    - rewrite (parse_items_no_slug _ _ Hparse H).
      destruct (ns_type args); reflexivity. }
  unfold script, main, parse_args in *. rewrite Hparse, bind_ret in *.
  destruct (negb _); [ destruct Hin as [H | []]; discriminate H | ].
  rewrite bind_ret, Hcustom in *. unfold custom_path_mode in *.
  destruct (ns_prompt args) as [p |], (ns_output args) as [o |];
    try (simpl in Hin; destruct Hin as [H | [H | []]]; discriminate H).
  destruct (Str.truthy p && Str.truthy o);
    [ | simpl in Hin; destruct Hin as [H | [H | []]]; discriminate H ].
  set (path := Pathlib.str (Pathlib.of_string o)) in *.
  set (T := try_except _ _ _) in *.
  assert (HT : Forall (saved_at path) (trace T)).
  { subst T. unfold report_error, print.
    trace_forall_with ltac:(eapply Forall_impl;
                             [ apply (generate_image_saves w p path) | ];
                             intros e He c' Hc'; apply (He c' Hc')).
    all: intros c' Hc'; discriminate Hc'. }
  unfold mkdir in *. destruct (path_mkdir w _);
    [ simpl in Hin; destruct Hin as [H | []]; discriminate H | ].
  destruct T as [t r]. simpl in *. destruct Hin as [H | Hin]; [ discriminate H | ].
  rewrite List.Forall_forall in HT. rewrite (HT _ Hin c eq_refl).
  subst path. rewrite (of_string_str _ (of_string_wf o)).
  eexists. split; [ reflexivity | exact Hin ].
Qed.

Lemma custom_path_parent_is_created_witness :
  exists rest,
    trace (script (sample_world sample_rgb)
             [Positional "a fern"; Positional "out//2025/fern.png"])
    = Mkdir (Pathlib.mkPath "" ["out"; "2025"]) :: rest
    /\ In (Save (PIL.mkSave "out/2025/fern.png" "PNG" None None sample_rgb)) rest.
Proof.
  apply (custom_path_parent_is_created (sample_world sample_rgb)
           [Positional "a fern"; Positional "out//2025/fern.png"]
           (mkNamespace (Some "a fern") (Some "out//2025/fern.png") None None
              "1536x1024" "high")
           (PIL.mkSave "out/2025/fern.png" "PNG" None None sample_rgb)).
  - reflexivity.
  - left. reflexivity.
  - vm_compute. do 4 right. left. reflexivity.
Defined.
